(** * flutter-setup: the configuration record, the SDK manager, the project
    creator and the bootstrapper of [src/flutter_setup], embedded in Rocq.

    Python's [str] is a sequence of Unicode code points: it is modelled as
    [list N].  The parts of the Python runtime the program calls but does not
    define (the Unicode case tables, [pathlib], the processes started through
    [subprocess.run], the errors the operating system reports on file
    operations) are the fields of two classes, [Unicode] and [Host]; every
    function of the repository is written out over them. *)

From Stdlib Require Import String Ascii NArith ZArith Bool Lia List.
Import ListNotations.

Local Open Scope N_scope.

(* ================================================================== *)
(** * Python strings *)
(* ================================================================== *)

Definition str := list N.

(** The code points of a UTF-8 byte sequence; the literals of the source are
    written as Rocq strings and decoded with [u]. *)
Fixpoint utf8_decode (bs : list N) : str :=
  match bs with
  | [] => []
  | b :: rest =>
      if b <? 128 then b :: utf8_decode rest
      else if b <? 224 then
        match rest with
        | b1 :: r => ((b - 192) * 64 + (b1 - 128)) :: utf8_decode r
        | [] => [b]
        end
      else if b <? 240 then
        match rest with
        | b1 :: b2 :: r =>
            ((b - 224) * 4096 + (b1 - 128) * 64 + (b2 - 128)) :: utf8_decode r
        | _ => [b]
        end
      else
        match rest with
        | b1 :: b2 :: b3 :: r =>
            ((b - 240) * 262144 + (b1 - 128) * 4096 + (b2 - 128) * 64 + (b3 - 128))
              :: utf8_decode r
        | _ => [b]
        end
  end.

Definition u (s : string) : str :=
  utf8_decode (map N_of_ascii (list_ascii_of_string s)).

Definition str_eqb (a b : str) : bool :=
  if list_eq_dec N.eq_dec a b then true else false.

(** [x in xs] for a list or set of strings. *)
Definition str_in (x : str) (xs : list str) : bool := existsb (str_eqb x) xs.

(** Truth value of a sequence: [if s:] *)
Definition truthy {A} (s : list A) : bool :=
  match s with [] => false | _ => true end.

Definition is_upper_AZ (c : N) : bool := (65 <=? c) && (c <=? 90).
Definition is_lower_az (c : N) : bool := (97 <=? c) && (c <=? 122).
Definition is_digit_09 (c : N) : bool := (48 <=? c) && (c <=? 57).
Definition underscore : N := 95.
Definition newline : N := 10.

(** The Unicode tables behind [str.lower] and [str.isalpha].  CPython maps
    'A'..'Z' to 'a'..'z' and leaves every other ASCII code point; a code point
    above 127 is rewritten by the tables into one to three code points, and
    for capital sigma the result depends on its neighbours.  [unicode_lower
    before c after] is that rewriting ([before] is the text to the left of [c],
    nearest code point first). *)
Class Unicode := {
  unicode_lower : str -> N -> str -> str;
  unicode_isalpha : N -> bool
}.

Section Strings.
Context {U : Unicode}.

Definition lower_char (before : str) (c : N) (after : str) : str :=
  if c <? 128 then [if is_upper_AZ c then c + 32 else c]
  else unicode_lower before c after.

Fixpoint lower_from (before s : str) : str :=
  match s with
  | [] => []
  | c :: rest => lower_char before c rest ++ lower_from (c :: before) rest
  end.

(** [s.lower()] *)
Definition lower (s : str) : str := lower_from [] s.

(** [c.isalpha()] for a single code point. *)
Definition isalpha (c : N) : bool :=
  if c <? 128 then is_upper_AZ c || is_lower_az c else unicode_isalpha c.

End Strings.

(** [s.lstrip(chars)], [s.rstrip(chars)], [s.strip(chars)] *)
Definition in_chars (chars : list N) (c : N) : bool := existsb (N.eqb c) chars.

Fixpoint lstrip (chars : list N) (s : str) : str :=
  match s with
  | [] => []
  | c :: r => if in_chars chars c then lstrip chars r else s
  end.

Fixpoint rstrip (chars : list N) (s : str) : str :=
  match s with
  | [] => []
  | c :: r =>
      match rstrip chars r with
      | [] => if in_chars chars c then [] else [c]
      | r' => c :: r'
      end
  end.

Definition strip (chars : list N) (s : str) : str := rstrip chars (lstrip chars s).

(** The character class [[a-z0-9_]] of the sanitizer's pattern. *)
Definition word_char (c : N) : bool :=
  is_lower_az c || is_digit_09 c || (c =? underscore).

(** [re.sub(r'[^a-z0-9_]', '_', s)]: the pattern matches exactly one code
    point outside the class, so every such code point becomes an underscore. *)
Definition re_sub_non_word (s : str) : str :=
  map (fun c => if word_char c then c else underscore) s.

(** [prefix] is a prefix of [s]: [s.startswith(prefix)] *)
Fixpoint startswith (prefix s : str) : bool :=
  match prefix, s with
  | [], _ => true
  | p :: ps, c :: cs => (p =? c) && startswith ps cs
  | _ :: _, [] => false
  end.

(** [needle in hay] *)
Fixpoint contains (needle hay : str) : bool :=
  match hay with
  | [] => startswith needle []
  | _ :: rest => startswith needle hay || contains needle rest
  end.

(** [s.split(sep)] for a separator of one code point (the source splits on
    a newline only). *)
Fixpoint split_char (sep : N) (s : str) : list str :=
  match s with
  | [] => [[]]
  | c :: r =>
      if c =? sep then [] :: split_char sep r
      else match split_char sep r with
           | l :: ls => (c :: l) :: ls
           | [] => [[c]]
           end
  end.

(** [sep.join(parts)] *)
Fixpoint join (sep : str) (parts : list str) : str :=
  match parts with
  | [] => []
  | l :: rest =>
      match rest with
      | [] => l
      | _ :: _ => l ++ sep ++ join sep rest
      end
  end.

(** [s.replace(old, new)]: the occurrences of [old] are taken from the left
    and do not overlap; [skip] counts the code points of the occurrence being
    replaced that are still to be passed over. *)
Fixpoint replace_from (old new s : str) (skip : nat) : str :=
  match s with
  | [] => []
  | c :: r =>
      match skip with
      | S k => replace_from old new r k
      | O =>
          if startswith old s then new ++ replace_from old new r (List.length old - 1)
          else c :: replace_from old new r 0
      end
  end.

Definition replace (old new s : str) : str :=
  match old with
  | [] => new ++ concat (map (fun c => c :: new) s)
  | _ :: _ => replace_from old new s 0
  end.

(** [l.insert(i, x)]: a negative index counts from the end, an index out of
    range is clipped. *)
Definition list_insert {A} (i : Z) (x : A) (l : list A) : list A :=
  let n := Z.of_nat (List.length l) in
  let k := (if i <? 0 then Z.max 0 (i + n) else Z.min i n)%Z in
  firstn (Z.to_nat k) l ++ x :: skipn (Z.to_nat k) l.

(** Whitespace as [str.strip()] and [str.split()] without argument see it. *)
Definition is_space (c : N) : bool :=
  ((9 <=? c) && (c <=? 13)) || ((28 <=? c) && (c <=? 32))
  || (c =? 133) || (c =? 160) || (c =? 5760)
  || ((8192 <=? c) && (c <=? 8202))
  || (c =? 8232) || (c =? 8233) || (c =? 8239) || (c =? 8287) || (c =? 12288).

Fixpoint lstrip_ws (s : str) : str :=
  match s with
  | [] => []
  | c :: r => if is_space c then lstrip_ws r else s
  end.

Fixpoint rstrip_ws (s : str) : str :=
  match s with
  | [] => []
  | c :: r =>
      match rstrip_ws r with
      | [] => if is_space c then [] else [c]
      | r' => c :: r'
      end
  end.

(** [s.strip()] *)
Definition strip_ws (s : str) : str := rstrip_ws (lstrip_ws s).

(** [s.split()]: the maximal runs of code points that are not whitespace.
    [word] is the run being read, last code point first. *)
Fixpoint split_ws_from (word s : str) : list str :=
  match s with
  | [] => match word with [] => [] | _ => [rev word] end
  | c :: r =>
      if is_space c then
        match word with
        | [] => split_ws_from [] r
        | _ => rev word :: split_ws_from [] r
        end
      else split_ws_from (c :: word) r
  end.

Definition split_ws (s : str) : list str := split_ws_from [] s.

Definition dquote : str := [34].
Definition tab : str := [9].
Definition nl : str := [newline].

(** A text given line by line, every line ended by a newline. *)
Definition text_of_lines (ls : list str) : str := concat (map (fun l => l ++ nl) ls).

(* ================================================================== *)
(** * The Python runtime: exceptions, paths, files, processes, console *)
(* ================================================================== *)

(** The exception classes the program raises or catches.  [OSError] stands
    for every exception the runtime raises on a file operation or when a
    process cannot be started. *)
Inductive ExnClass : Type :=
| Exception
| ValueError
| OSError
| CalledProcessError
| FlutterSetupError
| PrerequisitesError
| FlutterInstallationError
| ProjectCreationError
| ConfigurationError
| SystemError.

Definition ExnClass_eqb (a b : ExnClass) : bool :=
  match a, b with
  | Exception, Exception | ValueError, ValueError | OSError, OSError
  | CalledProcessError, CalledProcessError
  | FlutterSetupError, FlutterSetupError
  | PrerequisitesError, PrerequisitesError
  | FlutterInstallationError, FlutterInstallationError
  | ProjectCreationError, ProjectCreationError
  | ConfigurationError, ConfigurationError
  | SystemError, SystemError => true
  | _, _ => false
  end.

(** exceptions.py: the five errors of the program derive from
    [FlutterSetupError], which derives from [Exception]. *)
Definition issubclass (c base : ExnClass) : bool :=
  ExnClass_eqb c base
  || match base with
     | Exception => true
     | FlutterSetupError =>
         match c with
         | PrerequisitesError | FlutterInstallationError | ProjectCreationError
         | ConfigurationError | SystemError => true
         | _ => false
         end
     | _ => false
     end.

(** An exception object: its class and [str(e)]. *)
Record Exn : Type := mkExn { exn_class : ExnClass; exn_str : str }.

Definition isinstance (e : Exn) (base : ExnClass) : bool :=
  issubclass (exn_class e) base.

Inductive Res (A : Type) : Type :=
| Ok (a : A)
| Raise (e : Exn).
Arguments Ok {A} a.
Arguments Raise {A} e.

(** A [pathlib.Path], by its [str()]. *)
Record Path : Type := PosixPath { fspath : str }.

Definition Path_eqb (p q : Path) : bool := str_eqb (fspath p) (fspath q).

(** What a path names.  The text of a file is what reading it in text mode
    returns. *)
Inductive Node : Type :=
| File (text : str)
| Dir.

Definition FS := Path -> option Node.

(** The arguments of [subprocess.run] that reach the started program. *)
Record Command : Type := mkCommand {
  argv : list str;
  cwd : option Path;
  env : option (list (str * str))
}.

(** A process either runs to an exit status, or cannot be started. *)
Inductive ProcResult : Type :=
| Exited (returncode : Z) (stdout stderr : str)
| NotStarted (reason : str).

Record CompletedProcess : Type := mkCompleted {
  returncode : Z;
  stdout : str;
  stderr : str
}.

Inductive IoOp : Type :=
| OpMkdir (p : Path)
| OpRead (p : Path)
| OpWrite (p : Path)
| OpAppend (p : Path)
| OpRmtree (p : Path).

(** The machine the program runs on.  [OS] is its state apart from the named
    files (installed packages, the objects of git repositories, ...);
    [exec] runs a program to completion; [os_error] is the error, if any,
    the operating system answers a file operation with (permissions, a
    missing parent directory, a full disk); [rev_parse root ref] is the commit
    [ref] names in the git checkout at [root]. *)
Class Host : Type := {
  joinpath : Path -> str -> Path;
  parent : Path -> Path;
  home : Path;
  below : Path -> Path -> bool;
  OS : Type;
  exec : Command -> FS -> OS -> ProcResult * FS * OS;
  os_error : IoOp -> FS -> OS -> option str;
  str_CalledProcessError : list str -> Z -> str;
  Commit : Type;
  rev_parse : FS -> OS -> Path -> str -> option Commit
}.

(** What [rich] is asked to show. *)
Inductive Output : Type :=
| Print (text : str)
| PrintPanel (text title border_style : str)
| ProgressAddTask (description : str)
| ProgressUpdate (description : str).

(** The operations that change something outside the process, as they are
    attempted. *)
Inductive Effect : Type :=
| Run (cmd : Command)
| Mkdir (p : Path)
| WriteFile (p : Path) (text : str)
| AppendFile (p : Path) (text : str)
| Rmtree (p : Path).

Section Runtime.
Context {H : Host}.

Record World : Type := mkWorld {
  fs : FS;
  os : OS;
  console : list Output;
  effects : list Effect;
  sys_path : list str
}.

(** Python code: a world in, a value or an exception and a world out. *)
Definition Py (A : Type) : Type := World -> Res A * World.

Definition ret {A} (a : A) : Py A := fun w => (Ok a, w).

Definition bind {A B} (m : Py A) (k : A -> Py B) : Py B :=
  fun w =>
    match m w with
    | (Ok a, w') => k a w'
    | (Raise e, w') => (Raise e, w')
    end.

Definition raise {A} (c : ExnClass) (msg : str) : Py A :=
  fun w => (Raise (mkExn c msg), w).

(** [raise] without argument inside a handler. *)
Definition reraise {A} (e : Exn) : Py A := fun w => (Raise e, w).

(** [try: body except base as e: handler] *)
Definition try_except {A} (body : Py A) (base : ExnClass) (handler : Exn -> Py A) : Py A :=
  fun w =>
    match body w with
    | (Ok a, w') => (Ok a, w')
    | (Raise e, w') => if isinstance e base then handler e w' else (Raise e, w')
    end.

(** [for x in xs: body] *)
Fixpoint for_each {A} (xs : list A) (body : A -> Py unit) : Py unit :=
  match xs with
  | [] => ret tt
  | x :: rest => bind (body x) (fun _ => for_each rest body)
  end.

Definition set_fs (f : FS) (w : World) : World :=
  mkWorld f (os w) (console w) (effects w) (sys_path w).

Definition set_machine (f : FS) (o : OS) (w : World) : World :=
  mkWorld f o (console w) (effects w) (sys_path w).

Definition show (o : Output) (w : World) : World :=
  mkWorld (fs w) (os w) (console w ++ [o]) (effects w) (sys_path w).

Definition record (e : Effect) (w : World) : World :=
  mkWorld (fs w) (os w) (console w) (effects w ++ [e]) (sys_path w).

Definition update (f : FS) (p : Path) (n : option Node) : FS :=
  fun q => if Path_eqb q p then n else f q.

(** [console.print(text)] *)
Definition console_print (text : str) : Py unit :=
  fun w => (Ok tt, show (Print text) w).

Definition console_print_panel (text title border_style : str) : Py unit :=
  fun w => (Ok tt, show (PrintPanel text title border_style) w).

Definition progress_add_task (description : str) : Py unit :=
  fun w => (Ok tt, show (ProgressAddTask description) w).

Definition progress_update (description : str) : Py unit :=
  fun w => (Ok tt, show (ProgressUpdate description) w).

(** [subprocess.run(argv, cwd=.., env=.., check=..)]: a program that cannot
    be started raises [OSError]; with [check], an exit status other than 0
    raises [CalledProcessError]. *)
Definition subprocess_run (cmd : Command) (check : bool) : Py CompletedProcess :=
  fun w =>
    let w1 := record (Run cmd) w in
    match exec cmd (fs w) (os w) with
    | (NotStarted reason, fs', os') =>
        (Raise (mkExn OSError reason), set_machine fs' os' w1)
    | (Exited rc out err, fs', os') =>
        if check && negb (rc =? 0)%Z
        then (Raise (mkExn CalledProcessError (str_CalledProcessError (argv cmd) rc)),
              set_machine fs' os' w1)
        else (Ok (mkCompleted rc out err), set_machine fs' os' w1)
    end.

(** [p.exists()] *)
Definition path_exists (p : Path) : Py bool :=
  fun w => (Ok (match fs w p with Some _ => true | None => false end), w).

(** [p.mkdir(exist_ok=True)] and [p.mkdir(parents=True, exist_ok=True)]: the
    two differ in the errors the operating system can answer with. *)
Definition mkdir (p : Path) : Py unit :=
  fun w =>
    let w1 := record (Mkdir p) w in
    match os_error (OpMkdir p) (fs w) (os w) with
    | Some reason => (Raise (mkExn OSError reason), w1)
    | None =>
        match fs w p with
        | Some Dir => (Ok tt, w1)
        | Some (File _) => (Raise (mkExn OSError (u "File exists")), w1)
        | None => (Ok tt, set_fs (update (fs w) p (Some Dir)) w1)
        end
    end.

(** [with open(p, 'r') as f: f.read()] *)
Definition read_text (p : Path) : Py str :=
  fun w =>
    match os_error (OpRead p) (fs w) (os w) with
    | Some reason => (Raise (mkExn OSError reason), w)
    | None =>
        match fs w p with
        | Some (File text) => (Ok text, w)
        | Some Dir => (Raise (mkExn OSError (u "Is a directory")), w)
        | None => (Raise (mkExn OSError (u "No such file or directory")), w)
        end
    end.

(** [with open(p, 'w') as f: f.write(text)] *)
Definition write_text (p : Path) (text : str) : Py unit :=
  fun w =>
    let w1 := record (WriteFile p text) w in
    match os_error (OpWrite p) (fs w) (os w) with
    | Some reason => (Raise (mkExn OSError reason), w1)
    | None =>
        match fs w p with
        | Some Dir => (Raise (mkExn OSError (u "Is a directory")), w1)
        | _ => (Ok tt, set_fs (update (fs w) p (Some (File text))) w1)
        end
    end.

(** [with open(p, 'a') as f: f.write(text)] *)
Definition append_text (p : Path) (text : str) : Py unit :=
  fun w =>
    let w1 := record (AppendFile p text) w in
    match os_error (OpAppend p) (fs w) (os w) with
    | Some reason => (Raise (mkExn OSError reason), w1)
    | None =>
        match fs w p with
        | Some Dir => (Raise (mkExn OSError (u "Is a directory")), w1)
        | Some (File old) => (Ok tt, set_fs (update (fs w) p (Some (File (old ++ text)))) w1)
        | None => (Ok tt, set_fs (update (fs w) p (Some (File text))) w1)
        end
    end.

(** [shutil.rmtree(p)] *)
Definition rmtree (p : Path) : Py unit :=
  fun w =>
    let w1 := record (Rmtree p) w in
    match os_error (OpRmtree p) (fs w) (os w) with
    | Some reason => (Raise (mkExn OSError reason), w1)
    | None =>
        (Ok tt, set_fs (fun q => if Path_eqb q p || below p q then None else fs w q) w1)
    end.

(** [if x not in sys.path: sys.path.insert(0, x)] *)
Definition sys_path_ensure (x : str) : Py unit :=
  fun w =>
    if str_in x (sys_path w) then (Ok tt, w)
    else (Ok tt, mkWorld (fs w) (os w) (console w) (effects w) (x :: sys_path w)).

End Runtime.

Declare Scope py_scope.
Delimit Scope py_scope with py.
Notation "x <- m ;; k" := (bind m (fun x => k))
  (at level 61, m at next level, right associativity) : py_scope.
Notation "m ;; k" := (bind m (fun _ => k))
  (at level 61, right associativity) : py_scope.
Notation "p // s" := (joinpath p s) (at level 40, left associativity) : py_scope.

Local Open Scope py_scope.

(* ================================================================== *)
(** * config.py *)
(* ================================================================== *)

Record Config : Type := mkConfig {
  project_name : str;
  platforms : list str;
  org : str;
  channel : str;
  output_dir : Path;
  template : str;
  ios_language : str;
  android_language : str;
  flutter_update_mode : str;
  dry_run : bool;
  verbose : bool
}.

Definition valid_platforms : list str :=
  [u "ios"; u "android"; u "macos"; u "linux"; u "windows"; u "web"].

Section ConfigMethods.
Context {U : Unicode}.

(** The loop of [Config._validate] over the platforms. *)
Fixpoint validate_platforms (ps : list str) : Res unit :=
  match ps with
  | [] => Ok tt
  | platform :: rest =>
      if negb (str_in (lower platform) valid_platforms)
      then Raise (mkExn ValueError (u "Invalid platform: " ++ platform))
      else validate_platforms rest
  end.

(** [Config._validate] *)
Definition _validate (self : Config) : Res unit :=
  if negb (truthy (project_name self))
  then Raise (mkExn ValueError (u "Project name cannot be empty"))
  else if negb (truthy (platforms self))
  then Raise (mkExn ValueError (u "At least one platform must be specified"))
  else
    match validate_platforms (platforms self) with
    | Raise e => Raise e
    | Ok _ =>
        if str_eqb (template self) (u "plugin") then
          if negb (str_in (ios_language self) [u "swift"; u "objc"])
          then Raise (mkExn ValueError (u "Invalid iOS language: " ++ ios_language self))
          else if negb (str_in (android_language self) [u "kotlin"; u "java"])
          then Raise (mkExn ValueError
                        (u "Invalid Android language: " ++ android_language self))
          else Ok tt
        else Ok tt
    end.

(** [Config(...)]: the generated [__init__] stores the fields and calls
    [__post_init__], which validates; the object is returned only when
    validation raised nothing. *)
Definition Config_init
    (project_name : str) (platforms : list str) (org channel : str)
    (output_dir : Path) (template ios_language android_language : str)
    (flutter_update_mode : str) (dry_run verbose : bool) : Res Config :=
  let self := mkConfig project_name platforms org channel output_dir template
                ios_language android_language flutter_update_mode dry_run verbose in
  match _validate self with
  | Ok _ => Ok self
  | Raise e => Raise e
  end.

(** [Config._sanitize_package_name] *)
Definition _sanitize_package_name (name : str) : str :=
  let sanitized := re_sub_non_word (lower name) in
  let sanitized :=
    match sanitized with
    | c :: _ => if negb (isalpha c) then u "app_" ++ sanitized else sanitized
    | [] => sanitized
    end in
  let sanitized := strip [underscore] sanitized in
  if negb (truthy sanitized) then u "app" else sanitized.

(** [Config.package_name] *)
Definition package_name (self : Config) : str :=
  _sanitize_package_name (project_name self).

End ConfigMethods.

(** [Config.project_path] *)
Definition project_path {H : Host} (self : Config) : Path :=
  output_dir self // project_name self.

(** [Config.platforms_csv] *)
Definition platforms_csv (self : Config) : str := join (u ",") (platforms self).

(** The language of [^[a-z][a-z0-9_]*$], read as a match of the whole
    string. *)
Definition package_identifier (s : str) : bool :=
  match s with
  | [] => false
  | c :: rest => is_lower_az c && forallb word_char rest
  end.

(* ================================================================== *)
(** * prerequisites.py *)
(* ================================================================== *)

Definition command (args : list str) : Command := mkCommand args None None.
Definition command_in (dir : Path) (args : list str) : Command :=
  mkCommand args (Some dir) None.

Module PrerequisitesManager.
Section Methods.
Context {H : Host}.
Variable config : Config.

Definition _check_xcode_tools : Py unit :=
  console_print (u "  📱 Checking Xcode Command Line Tools...") ;;
  try_except
    (result <- subprocess_run (command [u "xcode-select"; u "-p"]) false ;;
     if negb (returncode result =? 0)%Z then
       console_print (u "  ⚠️  Xcode Command Line Tools not found, installing...") ;;
       subprocess_run (command [u "xcode-select"; u "--install"]) true ;;
       console_print (u "  ✅ Xcode Command Line Tools installation initiated") ;;
       console_print (u "  ℹ️  Please complete the installation in the popup window") ;;
       console_print (u "  ℹ️  You may need to restart the setup after installation") ;;
       raise PrerequisitesError (u "Xcode Command Line Tools installation required")
     else
       console_print (u "  ✅ Xcode Command Line Tools found"))
    CalledProcessError
    (fun e => raise PrerequisitesError (u "Failed to check Xcode tools: " ++ exn_str e)).

Definition _ensure_homebrew_path : Py unit :=
  try_except
    (present <- path_exists (PosixPath (u "/opt/homebrew/bin/brew")) ;;
     if present : bool then
       subprocess_run (command [u "/opt/homebrew/bin/brew"; u "shellenv"]) true ;;
       console_print (u "  ✅ Homebrew path configured")
     else ret tt)
    CalledProcessError
    (fun _ =>
       console_print
         (u "  ⚠️  Homebrew path configuration failed (may need manual setup)")).

Definition _install_homebrew : Py unit :=
  try_except
    (let install_script :=
       u "https://raw.githubusercontent.com/Homebrew/install/HEAD/install.sh" in
     subprocess_run
       (mkCommand
          [u "/bin/bash"; u "-c";
           u "curl -fsSL " ++ dquote ++ install_script ++ dquote ++ u " | bash"]
          None (Some [(u "NONINTERACTIVE", u "1")]))
       true ;;
     console_print (u "  ✅ Homebrew installed") ;;
     _ensure_homebrew_path)
    CalledProcessError
    (fun e => raise PrerequisitesError (u "Failed to install Homebrew: " ++ exn_str e)).

Definition _check_homebrew : Py unit :=
  console_print (u "  🍺 Checking Homebrew...") ;;
  try_except
    (result <- subprocess_run (command [u "brew"; u "--version"]) false ;;
     if negb (returncode result =? 0)%Z then
       console_print (u "  ⚠️  Homebrew not found, installing...") ;;
       _install_homebrew
     else
       console_print (u "  ✅ Homebrew found") ;;
       _ensure_homebrew_path)
    CalledProcessError
    (fun e => raise PrerequisitesError (u "Failed to check Homebrew: " ++ exn_str e)).

Definition _install_packages : Py unit :=
  let required_packages := [u "git"; u "cocoapods"] in
  for_each required_packages (fun package =>
    console_print (u "  📦 Installing " ++ package ++ u "...") ;;
    try_except
      (subprocess_run (command [u "brew"; u "install"; package]) true ;;
       console_print (u "  ✅ " ++ package ++ u " installed"))
      CalledProcessError
      (fun e =>
         result <- subprocess_run (command [u "brew"; u "list"; package]) false ;;
         if (returncode result =? 0)%Z then
           console_print (u "  ✅ " ++ package ++ u " already installed")
         else
           raise PrerequisitesError
             (u "Failed to install " ++ package ++ u ": " ++ exn_str e))).

Definition _setup_android_tools : Py unit :=
  console_print (u "  🤖 Setting up Android development tools...") ;;
  let android_packages :=
    [(u "--cask", u "temurin"); (u "--cask", u "android-commandlinetools")] in
  for_each android_packages (fun args =>
    let package := snd args in
    try_except
      (subprocess_run (command ([u "brew"; u "install"] ++ [fst args; snd args])) true ;;
       console_print (u "  ✅ " ++ package ++ u " installed"))
      CalledProcessError
      (fun e =>
         result <-
           subprocess_run (command [u "brew"; u "list"; u "--cask"; package]) false ;;
         if (returncode result =? 0)%Z then
           console_print (u "  ✅ " ++ package ++ u " already installed")
         else
           console_print
             (u "  ⚠️  Failed to install " ++ package ++ u ": " ++ exn_str e))).

Definition _setup_ios_tools : Py unit :=
  console_print (u "  🍎 Setting up iOS development tools...") ;;
  try_except
    (subprocess_run (command [u "pod"; u "repo"; u "update"]) false ;;
     console_print (u "  ✅ iOS tools configured"))
    Exception
    (fun e => console_print (u "  ⚠️  iOS tools configuration warning: " ++ exn_str e)).

Definition _setup_platform_tools : Py unit :=
  (if str_in (u "android") (platforms config) then _setup_android_tools else ret tt) ;;
  (if str_in (u "ios") (platforms config) then _setup_ios_tools else ret tt).

Definition check_and_install : Py unit :=
  if dry_run config then
    console_print (u "[yellow]DRY RUN: Would check and install prerequisites[/yellow]")
  else
    _check_xcode_tools ;;
    _check_homebrew ;;
    _install_packages ;;
    _setup_platform_tools.

End Methods.
End PrerequisitesManager.

(* ================================================================== *)
(** * flutter_manager.py *)
(* ================================================================== *)

Definition flutter_git_url : str := u "https://github.com/flutter/flutter.git".

Module FlutterManager.
Section Methods.
Context {H : Host}.
Variable config : Config.

Definition flutter_root : Path := home // u "development" // u "flutter".
Definition zprofile : Path := home // u ".zprofile".

Definition origin_channel : str := u "origin/" ++ channel config.

Definition clone_command : Command :=
  command [u "git"; u "clone"; u "--depth"; u "1"; u "-b"; channel config;
           flutter_git_url; fspath flutter_root].

Definition _install_flutter : Py unit :=
  console_print (u "  📥 Installing Flutter (" ++ channel config ++ u ")...") ;;
  try_except
    (mkdir (parent flutter_root) ;;
     subprocess_run clone_command true ;;
     console_print (u "  ✅ Flutter installed"))
    CalledProcessError
    (fun e =>
       raise FlutterInstallationError (u "Failed to install Flutter: " ++ exn_str e)).

Definition _reclone_flutter : Py unit :=
  console_print (u "  🔄 Recloning Flutter (" ++ channel config ++ u ")...") ;;
  try_except
    (present <- path_exists flutter_root ;;
     (if present : bool then rmtree flutter_root else ret tt) ;;
     _install_flutter)
    Exception
    (fun e =>
       raise FlutterInstallationError (u "Failed to reclone Flutter: " ++ exn_str e)).

Definition rev_list_command : Command :=
  command_in flutter_root
    [u "git"; u "rev-list"; u "--left-right"; u "--count";
     origin_channel ++ u "..." ++ channel config].

Definition reset_command : Command :=
  command_in flutter_root [u "git"; u "reset"; u "--hard"; origin_channel].

Definition _handle_diverged_branches : Py unit :=
  if str_eqb (flutter_update_mode config) (u "skip") then
    console_print
      (u "  ⚠️  Flutter repo has diverged; skipping update (per --flutter-update skip)")
  else
    console_print (u "  ⚠️  Flutter repo has diverged from origin") ;;
    try_except
      (result <- subprocess_run rev_list_command true ;;
       let counts := split_ws (strip_ws (stdout result)) in
       match counts with
       | [left_ahead; right_ahead] =>
           console_print
             (u "  📊 Local ahead by: " ++ right_ahead
                ++ u ", origin ahead by: " ++ left_ahead)
       | _ => ret tt
       end)
      CalledProcessError
      (fun _ => ret tt) ;;
    if str_eqb (flutter_update_mode config) (u "reset") then
      console_print (u "  🔄 Resetting Flutter to origin (discarding local changes)") ;;
      try_except
        (subprocess_run reset_command true ;;
         console_print (u "  ✅ Flutter reset to origin"))
        CalledProcessError
        (fun e =>
           raise FlutterInstallationError (u "Failed to reset Flutter: " ++ exn_str e))
    else ret tt.

Definition set_url_command : Command :=
  command_in flutter_root
    [u "git"; u "remote"; u "set-url"; u "origin"; flutter_git_url].

Definition fetch_command : Command :=
  command_in flutter_root [u "git"; u "fetch"; u "origin"; u "--prune"].

Definition checkout_command : Command :=
  command_in flutter_root [u "git"; u "checkout"; channel config].

Definition checkout_new_branch_command : Command :=
  command_in flutter_root
    [u "git"; u "checkout"; u "-b"; channel config; origin_channel].

Definition merge_command : Command :=
  command_in flutter_root [u "git"; u "merge"; u "--ff-only"; origin_channel].

(** The [return] after a fast-forward that succeeded leaves the function:
    the inner [try] yields whether it was taken. *)
Definition _update_flutter : Py unit :=
  console_print (u "  🔄 Updating Flutter (" ++ channel config ++ u ")...") ;;
  try_except
    (subprocess_run set_url_command false ;;
     subprocess_run fetch_command true ;;
     try_except
       (subprocess_run checkout_command true ;;
        ret tt)
       CalledProcessError
       (fun _ =>
          subprocess_run checkout_new_branch_command true ;;
          ret tt) ;;
     returned <-
       try_except
         (subprocess_run merge_command true ;;
          console_print (u "  ✅ Flutter updated (fast-forward)") ;;
          ret true)
         CalledProcessError
         (fun _ => ret false) ;;
     if returned : bool then ret tt else _handle_diverged_branches)
    CalledProcessError
    (fun e =>
       raise FlutterInstallationError (u "Failed to update Flutter: " ++ exn_str e)).

Definition flutter_path : str :=
  u "export PATH=" ++ dquote ++ fspath flutter_root ++ u "/bin:$PATH" ++ dquote.

Definition _ensure_flutter_path : Py unit :=
  console_print (u "  🔧 Configuring Flutter PATH...") ;;
  present <- path_exists zprofile ;;
  (if present : bool then
     content <- read_text zprofile ;;
     if negb (contains flutter_path content) then
       append_text zprofile (nl ++ flutter_path ++ nl) ;;
       console_print (u "  ✅ Flutter PATH added to .zprofile")
     else
       console_print (u "  ✅ Flutter PATH already in .zprofile")
   else
     write_text zprofile (flutter_path ++ nl) ;;
     console_print (u "  ✅ Flutter PATH added to .zprofile")) ;;
  let flutter_bin := flutter_root // u "bin" in
  sys_path_ensure (fspath flutter_bin).

Definition _handle_android_licenses : Py unit :=
  if negb (str_in (u "android") (platforms config)) then ret tt
  else
    console_print (u "  📱 Android licenses not accepted") ;;
    console_print
      (u "  ℹ️  You can run 'flutter doctor --android-licenses' later to accept licenses").

Definition doctor_command : Command :=
  command [fspath (flutter_root // u "bin" // u "flutter"); u "doctor"; u "-v"].

Definition _run_flutter_doctor : Py unit :=
  console_print (u "  🏥 Running Flutter doctor...") ;;
  try_except
    (result <- subprocess_run doctor_command false ;;
     if (returncode result =? 0)%Z then
       console_print (u "  ✅ Flutter doctor passed")
     else
       console_print (u "  ⚠️  Flutter doctor found issues:") ;;
       console_print (stderr result) ;;
       if contains (u "Some Android licenses not accepted") (stderr result) then
         console_print (u "  📱 Android licenses need acceptance") ;;
         _handle_android_licenses
       else ret tt)
    Exception
    (fun e => console_print (u "  ⚠️  Flutter doctor warning: " ++ exn_str e)).

Definition ensure_flutter : Py unit :=
  if dry_run config then
    console_print (u "[yellow]DRY RUN: Would manage Flutter SDK[/yellow]")
  else if str_eqb (flutter_update_mode config) (u "reclone") then
    _reclone_flutter
  else
    root_present <- path_exists flutter_root ;;
    git_present <- path_exists (flutter_root // u ".git") ;;
    (if negb root_present || negb git_present then _install_flutter
     else _update_flutter) ;;
    _ensure_flutter_path ;;
    _run_flutter_doctor.

End Methods.
End FlutterManager.

(* ================================================================== *)
(** * project_creator.py *)
(* ================================================================== *)

Module ProjectCreator.
Section Methods.
Context {U : Unicode} {H : Host}.
Variable config : Config.

Definition flutter_root : Path := home // u "development" // u "flutter".

Definition _build_create_command : list str :=
  let cmd :=
    [fspath (flutter_root // u "bin" // u "flutter");
     u "create";
     u "--org"; org config;
     u "--project-name"; package_name config;
     u "--platforms"; platforms_csv config;
     u "--template"; template config] in
  let cmd :=
    if str_eqb (template config) (u "plugin") then
      cmd ++ [u "--ios-language"; ios_language config;
              u "--android-language"; android_language config]
    else cmd in
  cmd ++ [fspath (project_path config)].

Definition create_project : Py unit :=
  if dry_run config then
    console_print (u "[yellow]DRY RUN: Would create Flutter project[/yellow]")
  else
    present <- path_exists (project_path config) ;;
    if present : bool then
      console_print
        (u "  ⚠️  Directory '" ++ fspath (project_path config)
           ++ u "' exists—skipping create.")
    else
      mkdir (output_dir config) ;;
      let create_cmd := _build_create_command in
      console_print
        (u "  🏗️  Creating Flutter project at " ++ fspath (project_path config)
           ++ u "...") ;;
      try_except
        (subprocess_run (command create_cmd) true ;;
         console_print (u "  ✅ Project created at: " ++ fspath (project_path config)))
        CalledProcessError
        (fun e =>
           raise ProjectCreationError (u "Failed to create project: " ++ exn_str e)).

End Methods.
End ProjectCreator.

(* ================================================================== *)
(** * bootstrap.py *)
(* ================================================================== *)

(** A key or a string value of a JSON document. *)
Definition quoted (s : string) : str := dquote ++ u s ++ dquote.

(** What [json.dump(settings, f, indent=2)] writes. *)
Definition settings_json : str :=
  join nl
    [u "{";
     u "  " ++ quoted "dart.flutterHotReloadOnSave" ++ u ": " ++ quoted "all" ++ u ",";
     u "  " ++ quoted "dart.lineLength" ++ u ": 100,";
     u "  " ++ quoted "editor.formatOnSave" ++ u ": true,";
     u "  " ++ quoted "editor.defaultFormatter" ++ u ": "
       ++ quoted "Dart-Code.dart-code" ++ u ",";
     u "  " ++ quoted "files.exclude" ++ u ": {";
     u "    " ++ quoted "**/.dart_tool" ++ u ": true,";
     u "    " ++ quoted "**/build" ++ u ": true";
     u "  }";
     u "}"].

(** What [json.dump(launch_config, f, indent=2)] writes. *)
Definition launch_json : str :=
  join nl
    [u "{";
     u "  " ++ quoted "version" ++ u ": " ++ quoted "0.2.0" ++ u ",";
     u "  " ++ quoted "configurations" ++ u ": [";
     u "    {";
     u "      " ++ quoted "name" ++ u ": " ++ quoted "Flutter Debug" ++ u ",";
     u "      " ++ quoted "request" ++ u ": " ++ quoted "launch" ++ u ",";
     u "      " ++ quoted "type" ++ u ": " ++ quoted "dart";
     u "    }";
     u "  ]";
     u "}"].

Definition makefile_content : str :=
  text_of_lines
    [u "run:";
     tab ++ u "flutter run -d chrome";
     u "";
     u "run_ios:";
     tab ++ u "flutter run -d ios";
     u "";
     u "run_android:";
     tab ++ u "flutter run -d android";
     u "";
     u "analyze:";
     tab ++ u "flutter analyze";
     u "";
     u "test:";
     tab ++ u "flutter test";
     u "";
     u "integration:";
     tab ++ u "flutter test integration_test"].

Definition unit_test : str :=
  text_of_lines
    [u "import 'package:flutter_test/flutter_test.dart';";
     u "";
     u "void main() {";
     u "  test('sanity check', () {";
     u "    expect(1 + 1, equals(2));";
     u "  });";
     u "}"].

Definition analysis_content : str :=
  text_of_lines
    [u "include: package:flutter_lints/flutter.yaml";
     u "";
     u "linter:";
     u "  rules:";
     u "    avoid_print: false";
     u "    prefer_const_constructors: true"].

Definition ci_content : str :=
  text_of_lines
    [u "name: Flutter CI";
     u "";
     u "on:";
     u "  push:";
     u "    branches: [ main ]";
     u "  pull_request:";
     u "";
     u "jobs:";
     u "  build:";
     u "    runs-on: macos-latest";
     u "    steps:";
     u "      - uses: actions/checkout@v4";
     u "      - uses: subosito/flutter-action@v2";
     u "        with:";
     u "          flutter-version: 'stable'";
     u "      - run: flutter pub get";
     u "      - run: flutter analyze";
     u "      - run: flutter test"].

Definition env_content : str :=
  text_of_lines
    [u "# Example environment variables";
     u "API_URL=https://api.example.com"].

(** ** The edit of [lib/main.dart] *)

Definition dotenv_marker : str := u "flutter_dotenv".
Definition dotenv_import : str :=
  u "import 'package:flutter_dotenv/flutter_dotenv.dart';".
Definition main_opening : str := u "void main() {".
Definition main_with_load : str :=
  u "Future<void> main() async {" ++ nl
    ++ u "  await dotenv.load(fileName: " ++ dquote ++ u ".env" ++ dquote ++ u ");".

(** The condition of the loop over the lines. *)
Definition is_flutter_import (line : str) : bool :=
  startswith (u "import ") (strip_ws line) && contains (u "package:flutter") line.

(** [for i, line in enumerate(lines): if ...: import_index = i; break], with
    [import_index = -1] before the loop; [i] is the index of the first line
    of [lines]. *)
Fixpoint find_import_index (i : Z) (lines : list str) : Z :=
  match lines with
  | [] => (-1)%Z
  | line :: rest =>
      if is_flutter_import line then i else find_import_index (i + 1)%Z rest
  end.

(** The body of [if "flutter_dotenv" not in content:] up to the write: the
    text that is written back. *)
Definition add_dotenv_loading (content : str) : str :=
  let lines := split_char newline content in
  let import_index := find_import_index 0%Z lines in
  let lines :=
    if (import_index >=? 0)%Z
    then list_insert (import_index + 1)%Z dotenv_import lines
    else list_insert 0%Z dotenv_import lines in
  let modified_content := join nl lines in
  replace main_opening main_with_load modified_content.

Module ProjectBootstrap.
Section Methods.
Context {U : Unicode} {H : Host}.
Variable config : Config.

Definition flutter_root : Path := home // u "development" // u "flutter".

Definition _create_vscode_config : Py unit :=
  let vscode_dir := project_path config // u ".vscode" in
  mkdir vscode_dir ;;
  write_text (vscode_dir // u "settings.json") settings_json ;;
  write_text (vscode_dir // u "launch.json") launch_json ;;
  console_print (u "  ✅ VS Code/Cursor configuration created").

Definition _create_makefile : Py unit :=
  write_text (project_path config // u "Makefile") makefile_content ;;
  console_print (u "  ✅ Makefile created").

Definition widget_test : str :=
  text_of_lines
    [u "import 'package:flutter_test/flutter_test.dart';";
     u "import 'package:" ++ package_name config ++ u "/main.dart';";
     u "";
     u "void main() {";
     u "  testWidgets('App loads without errors', (tester) async {";
     u "    await tester.pumpWidget(const MyApp());";
     u "    expect(find.byType(MyApp), findsOneWidget);";
     u "  });";
     u "}"].

Definition integration_test : str :=
  text_of_lines
    [u "import 'package:integration_test/integration_test.dart';";
     u "import 'package:flutter_test/flutter_test.dart';";
     u "import 'package:" ++ package_name config ++ u "/main.dart';";
     u "";
     u "void main() {";
     u "  IntegrationTestWidgetsFlutterBinding.ensureInitialized();";
     u "";
     u "  testWidgets('home page renders', (tester) async {";
     u "    await tester.pumpWidget(const MyApp());";
     u "    expect(find.byType(MyApp), findsOneWidget);";
     u "  });";
     u "}"].

Definition _create_sample_tests : Py unit :=
  write_text (project_path config // u "test" // u "unit" // u "sanity_test.dart")
    unit_test ;;
  write_text (project_path config // u "test" // u "widget" // u "app_widget_test.dart")
    widget_test ;;
  write_text (project_path config // u "integration_test" // u "app_test.dart")
    integration_test.

Definition _create_test_structure : Py unit :=
  let test_dir := project_path config // u "test" in
  mkdir test_dir ;;
  let unit_dir := test_dir // u "unit" in
  mkdir unit_dir ;;
  let widget_dir := test_dir // u "widget" in
  mkdir widget_dir ;;
  let integration_dir := project_path config // u "integration_test" in
  mkdir integration_dir ;;
  _create_sample_tests ;;
  console_print (u "  ✅ Test structure created").

Definition _create_analysis_options : Py unit :=
  write_text (project_path config // u "analysis_options.yaml") analysis_content ;;
  console_print (u "  ✅ Analysis options created").

Definition _create_github_actions : Py unit :=
  let workflows_dir := project_path config // u ".github" // u "workflows" in
  mkdir workflows_dir ;;
  write_text (workflows_dir // u "flutter-ci.yml") ci_content ;;
  console_print (u "  ✅ GitHub Actions CI created").

Definition flutter_bin : str := fspath (flutter_root // u "bin" // u "flutter").

Definition _add_dependencies : Py unit :=
  try_except
    (subprocess_run
       (command_in (project_path config)
          [flutter_bin; u "pub"; u "add"; u "flutter_dotenv"])
       false ;;
     subprocess_run
       (command_in (project_path config)
          [flutter_bin; u "pub"; u "add"; u "--dev"; u "flutter_lints";
           u "integration_test"])
       false ;;
     console_print (u "  ✅ Dependencies added"))
    Exception
    (fun e => console_print (u "  ⚠️  Dependency addition warning: " ++ exn_str e)).

Definition main_dart : Path := project_path config // u "lib" // u "main.dart".

Definition _modify_main_dart : Py unit :=
  present <- path_exists main_dart ;;
  if negb present then ret tt
  else
    try_except
      (content <- read_text main_dart ;;
       if negb (contains dotenv_marker content) then
         write_text main_dart (add_dotenv_loading content)
       else ret tt)
      Exception
      (fun e => console_print (u "  ⚠️  Main.dart modification warning: " ++ exn_str e)).

Definition _create_environment_support : Py unit :=
  write_text (project_path config // u ".env") env_content ;;
  _modify_main_dart ;;
  console_print (u "  ✅ Environment support created").

Definition readme_content : str :=
  text_of_lines
    [u "# " ++ project_name config;
     u "";
     u "Flutter app scaffolded for Cursor.";
     u "";
     u "## Quickstart";
     u "```bash";
     u "flutter pub get";
     u "make run            # runs on Chrome by default";
     u "```";
     u "";
     u "## Testing";
     u "```bash";
     u "make test           # unit + widget tests";
     u "make integration    # integration_test/";
     u "```";
     u "";
     u "## Linting";
     u "```bash";
     u "make analyze";
     u "```";
     u "";
     u "## Env vars";
     u "Edit `.env` and access with `dotenv.env['KEY']` after startup."].

Definition _create_readme : Py unit :=
  write_text (project_path config // u "README.md") readme_content ;;
  console_print (u "  ✅ README created").

Definition _format_code : Py unit :=
  try_except
    (subprocess_run
       (command_in (project_path config)
          [fspath (flutter_root // u "bin" // u "dart"); u "format"; u "."])
       false ;;
     console_print (u "  ✅ Code formatted"))
    Exception
    (fun e => console_print (u "  ⚠️  Code formatting warning: " ++ exn_str e)).

(** The nine steps of [bootstrap_project], in the order of the source. *)
Definition steps : list (Py unit) :=
  [_create_vscode_config; _create_makefile; _create_test_structure;
   _create_analysis_options; _create_github_actions; _add_dependencies;
   _create_environment_support; _create_readme; _format_code].

Definition bootstrap_project : Py unit :=
  if dry_run config then
    console_print
      (u "[yellow]DRY RUN: Would bootstrap development environment[/yellow]")
  else
    console_print (u "  🔧 Bootstrapping development & testing helpers...") ;;
    _create_vscode_config ;;
    _create_makefile ;;
    _create_test_structure ;;
    _create_analysis_options ;;
    _create_github_actions ;;
    _add_dependencies ;;
    _create_environment_support ;;
    _create_readme ;;
    _format_code.

End Methods.
End ProjectBootstrap.

(* ================================================================== *)
(** * core.py *)
(* ================================================================== *)

Module FlutterSetup.
Section Methods.
Context {U : Unicode} {H : Host}.
Variable config : Config.

Definition _run_prerequisites : Py unit :=
  console_print (nl ++ u "[bold]📋 Checking prerequisites...[/bold]") ;;
  progress_add_task (u "Checking system requirements...") ;;
  try_except
    (PrerequisitesManager.check_and_install config ;;
     progress_update (u "✅ Prerequisites satisfied"))
    Exception
    (fun e =>
       progress_update (u "❌ Prerequisites failed") ;;
       raise PrerequisitesError (u "Failed to install prerequisites: " ++ exn_str e)).

Definition _run_flutter_installation : Py unit :=
  console_print (nl ++ u "[bold]🦋 Installing/updating Flutter SDK...[/bold]") ;;
  progress_add_task (u "Setting up Flutter SDK...") ;;
  try_except
    (FlutterManager.ensure_flutter config ;;
     progress_update (u "✅ Flutter SDK ready"))
    Exception
    (fun e =>
       progress_update (u "❌ Flutter installation failed") ;;
       raise FlutterInstallationError (u "Failed to install Flutter: " ++ exn_str e)).

Definition _run_project_creation : Py unit :=
  console_print (nl ++ u "[bold]🏗️  Creating Flutter project...[/bold]") ;;
  progress_add_task (u "Creating project structure...") ;;
  try_except
    (ProjectCreator.create_project config ;;
     progress_update (u "✅ Project created"))
    Exception
    (fun e =>
       progress_update (u "❌ Project creation failed") ;;
       raise ProjectCreationError (u "Failed to create project: " ++ exn_str e)).

Definition _run_bootstrap : Py unit :=
  console_print (nl ++ u "[bold]🔧 Bootstrapping development environment...[/bold]") ;;
  progress_add_task (u "Setting up development tools...") ;;
  try_except
    (ProjectBootstrap.bootstrap_project config ;;
     progress_update (u "✅ Development environment ready"))
    Exception
    (fun e =>
       progress_update (u "❌ Bootstrap failed") ;;
       raise FlutterSetupError (u "Failed to bootstrap project: " ++ exn_str e)).

Definition next_steps : str :=
  nl ++
  join nl
    [u "[bold]Next steps:[/bold]";
     u "";
     u "1. [blue]Activate Flutter in your shell:[/blue]";
     u "   [code]source ~/.zprofile[/code]";
     u "";
     u "2. [blue]Navigate to your project:[/blue]";
     u "   [code]cd " ++ dquote ++ fspath (project_path config) ++ dquote ++ u "[/code]";
     u "";
     u "3. [blue]Run your Flutter app:[/blue]";
     u "   [code]make run[/code]           # runs on Chrome by default";
     u "   [code]make run_ios[/code]       # runs on iOS simulator";
     u "   [code]make run_android[/code]   # runs on Android emulator";
     u "";
     u "4. [blue]Test your setup:[/blue]";
     u "   [code]make test[/code]          # run unit + widget tests";
     u "   [code]make analyze[/code]       # check lints";
     u "";
     u "5. [blue]Open in Cursor/VS Code:[/blue]";
     u "   Hit F5 (" ++ dquote ++ u "Flutter Debug" ++ dquote ++ u ") to start debugging";
     u "";
     u "[dim]Your project is located at: " ++ fspath (project_path config) ++ u "[/dim]";
     u "        "].

Definition _show_next_steps : Py unit :=
  console_print (nl ++ u "[bold green]🎉 Setup completed successfully![/bold green]") ;;
  console_print_panel next_steps (u "🚀 Ready to Code!") (u "green").

Definition run : Py unit :=
  console_print
    (nl ++ u "[bold blue]🚀 Starting Flutter setup for: " ++ project_name config
       ++ u "[/bold blue]") ;;
  console_print
    (u "[dim]Template: " ++ template config ++ u " | Org: " ++ org config
       ++ u " | Channel: " ++ channel config ++ u "[/dim]") ;;
  console_print
    (u "[dim]Platforms: " ++ join (u ", ") (platforms config)
       ++ u " | Package: " ++ package_name config ++ u "[/dim]") ;;
  console_print (u "[dim]Output: " ++ fspath (project_path config) ++ u "[/dim]") ;;
  (if dry_run config then
     console_print (u "[yellow]⚠️  DRY RUN MODE - No actual changes will be made[/yellow]")
   else ret tt) ;;
  try_except
    (_run_prerequisites ;;
     _run_flutter_installation ;;
     _run_project_creation ;;
     _run_bootstrap ;;
     _show_next_steps)
    Exception
    (fun e =>
       console_print (nl ++ u "[red]❌ Setup failed: " ++ exn_str e ++ u "[/red]") ;;
       reraise e).

End Methods.
End FlutterSetup.

(* ================================================================== *)
(** * cli.py *)
(* ================================================================== *)

(** [try: body except c1 as e: h1 except c2 as e: h2]: the first clause whose
    class matches handles the exception, and what a handler raises is not
    offered to the other clause. *)
Definition try_except_2 {H : Host} {A} (body : Py A)
    (c1 : ExnClass) (h1 : Exn -> Py A) (c2 : ExnClass) (h2 : Exn -> Py A) : Py A :=
  fun w =>
    match body w with
    | (Ok a, w') => (Ok a, w')
    | (Raise e, w') =>
        if isinstance e c1 then h1 e w'
        else if isinstance e c2 then h2 e w'
        else (Raise e, w')
    end.

Definition banner : str :=
  nl ++ u "[bold blue]Flutter Development Environment Setup[/bold blue]" ++ nl
    ++ u "[dim]Automated Flutter development environment setup for macOS[/dim]" ++ nl
    ++ u "    ".

(** [print_banner]: the panel has no title. *)
Definition print_banner {H : Host} : Py unit :=
  console_print_panel banner [] (u "blue").


Module Cli.
Section Methods.
Context {U : Unicode} {H : Host}.

(** [Path(dir)] of pathlib, and the text [console.print_exception()] shows
    for the exception being handled. *)
Variable Path_of : str -> Path.
Variable traceback : Exn -> str.

(** The body of the [try] of [main].  [sys.exit] raises [SystemExit], which
    none of the three clauses of [main] catches: it is the value [Some code]
    here, and [None] stands for reaching the end of the body. *)
Definition main_body
    (project_name : str) (platforms : list str) (org channel dir template : str)
    (ios_language android_language flutter_update : str) (dry_run verbose : bool)
    : Py (option Z) :=
  print_banner ;;
  if negb (truthy platforms) then
    console_print (u "[red]Error: At least one platform is required[/red]") ;;
    ret (Some 1%Z)
  else
    match Config_init project_name platforms org channel (Path_of dir) template
            ios_language android_language flutter_update dry_run verbose with
    | Raise e => reraise e
    | Ok config =>
        FlutterSetup.run config ;;
        console_print
          (nl ++ u "[green]✅ Flutter setup completed successfully![/green]") ;;
        ret None
    end.

(** [main].  The clause for [KeyboardInterrupt] is left out: nothing of the
    model raises it. *)
Definition main
    (project_name : str) (platforms : list str) (org channel dir template : str)
    (ios_language android_language flutter_update : str) (dry_run verbose : bool)
    : Py (option Z) :=
  try_except_2
    (main_body project_name platforms org channel dir template ios_language
       android_language flutter_update dry_run verbose)
    FlutterSetupError
    (fun e =>
       console_print (u "[red]❌ Setup failed: " ++ exn_str e ++ u "[/red]") ;;
       (if verbose then console_print (traceback e) else ret tt) ;;
       ret (Some 1%Z))
    Exception
    (fun e =>
       console_print (u "[red]❌ Unexpected error: " ++ exn_str e ++ u "[/red]") ;;
       (if verbose then console_print (traceback e) else ret tt) ;;
       ret (Some 1%Z)).

End Methods.
End Cli.

(* ================================================================== *)
(** * The vocabulary of the theorems *)
(* ================================================================== *)

(** An identifier the sanitizer has nothing to do on: it matches the
    pattern and does not end with an underscore. *)
Definition canonical (s : str) : Prop :=
  package_identifier s = true /\ rstrip [underscore] s = s.




(** The warning of [_modify_main_dart]. *)
Definition main_dart_warning (reason : str) : Output :=
  Print (u "  ⚠️  Main.dart modification warning: " ++ reason).

(** [attempts P m]: from any world, the operations [m] adds to the list of
    attempted operations all satisfy [P]. *)
Definition attempts {H : Host} {A} (P : Effect -> Prop) (m : Py A) : Prop :=
  forall w, exists ops, effects (snd (m w)) = effects w ++ ops /\ Forall P ops.

(** The operations of a reclone. *)
Definition reclone_operation {H : Host} (config : Config) (op : Effect) : Prop :=
  op = Rmtree FlutterManager.flutter_root
  \/ op = Mkdir (parent FlutterManager.flutter_root)
  \/ op = Run (FlutterManager.clone_command config).

(** The steps of [steps], run in order from [w], all returned and left the
    world [w']. *)
Fixpoint runs_ok {H : Host} (steps : list (Py unit)) (w w' : World) : Prop :=
  match steps with
  | [] => w' = w
  | s :: rest => exists w1, s w = (Ok tt, w1) /\ runs_ok rest w1 w'
  end.


(** What [Config._validate] accepts. *)
Definition valid_config {U : Unicode} (c : Config) : Prop :=
  project_name c <> []
  /\ platforms c <> []
  /\ Forall (fun p => In (lower p) valid_platforms) (platforms c)
  /\ (template c = u "plugin" ->
      In (ios_language c) [u "swift"; u "objc"]
      /\ In (android_language c) [u "kotlin"; u "java"]).

(** An ASCII code point that is neither a letter nor a digit. *)
Definition ascii_symbol (c : N) : bool :=
  (c <? 128) && negb (is_upper_AZ c || is_lower_az c || is_digit_09 c).

(** An operation that starts a program. *)
Definition is_run (op : Effect) : Prop := exists c, op = Run c.

(** [inside root p]: [p] is [root] or is reached from it by joining path
    segments. *)
Inductive inside {H : Host} (root : Path) : Path -> Prop :=
| inside_root : inside root root
| inside_join (p : Path) (s : str) : inside root p -> inside root (p // s).

(** What the SDK manager may do: run git in the checkout or the doctor,
    create the parent of the checkout, remove the checkout, write the shell
    startup file. *)
Definition sdk_operation {H : Host} (config : Config) (op : Effect) : Prop :=
  match op with
  | Run c =>
      (hd [] (argv c) = u "git" /\ (cwd c = Some FlutterManager.flutter_root \/ cwd c = None))
      \/ c = FlutterManager.doctor_command
  | Mkdir p => p = parent FlutterManager.flutter_root
  | Rmtree p => p = FlutterManager.flutter_root
  | WriteFile p _ => p = FlutterManager.zprofile
  | AppendFile p _ => p = FlutterManager.zprofile
  end.

(** What the project creator may do. *)
Definition creator_operation {U : Unicode} {H : Host} (config : Config) (op : Effect)
    : Prop :=
  op = Mkdir (output_dir config)
  \/ op = Run (command (ProjectCreator._build_create_command config)).

(** What the bootstrapper may do: create directories and write files inside
    the project directory, run programs in it. *)
Definition bootstrap_operation {H : Host} (config : Config) (op : Effect) : Prop :=
  match op with
  | Run c => cwd c = Some (project_path config)
  | Mkdir p => inside (project_path config) p
  | WriteFile p _ => inside (project_path config) p
  | AppendFile _ _ => False
  | Rmtree _ => False
  end.

(** A machine on which every program can be started. *)
Definition always_starts {H : Host} : Prop :=
  forall c f o, exists rc out err f' o', exec c f o = (Exited rc out err, f', o').

(** The four stages and the closing message of [FlutterSetup.run], in
    order. *)
Definition run_stages {U : Unicode} {H : Host} (config : Config) : list (Py unit) :=
  [FlutterSetup._run_prerequisites config;
   FlutterSetup._run_flutter_installation config;
   FlutterSetup._run_project_creation config;
   FlutterSetup._run_bootstrap config;
   FlutterSetup._show_next_steps config].

(** The world in which [run] enters its [try]: the header is printed. *)
Definition run_header {U : Unicode} {H : Host} (config : Config) (w : World) : World :=
  let w :=
    show (Print (nl ++ u "[bold blue]🚀 Starting Flutter setup for: "
                   ++ project_name config ++ u "[/bold blue]")) w in
  let w :=
    show (Print (u "[dim]Template: " ++ template config ++ u " | Org: " ++ org config
                   ++ u " | Channel: " ++ channel config ++ u "[/dim]")) w in
  let w :=
    show (Print (u "[dim]Platforms: " ++ join (u ", ") (platforms config)
                   ++ u " | Package: " ++ package_name config ++ u "[/dim]")) w in
  let w :=
    show (Print (u "[dim]Output: " ++ fspath (project_path config) ++ u "[/dim]")) w in
  if dry_run config then
    show (Print (u "[yellow]⚠️  DRY RUN MODE - No actual changes will be made[/yellow]"))
      w
  else w.

(** The line [run] prints before it raises again. *)
Definition setup_failed_line (e : Exn) : Output :=
  Print (nl ++ u "[red]❌ Setup failed: " ++ exn_str e ++ u "[/red]").

(** On every state of the machine the program [c] can be started, and it
    exits with a status that satisfies [ok]. *)
Definition exits {H : Host} (c : Command) (ok : Z -> Prop) : Prop :=
  forall f o, exists rc out err f' o',
    exec c f o = (Exited rc out err, f', o') /\ ok rc.

Definition succeeds {H : Host} (c : Command) : Prop := exits c (fun rc => rc = 0%Z).

Definition fails {H : Host} (c : Command) : Prop := exits c (fun rc => rc <> 0%Z).

(** What a whole run may do besides starting programs: create the parent of
    the SDK checkout, the output directory and directories of the project;
    write the shell startup file and files of the project; remove the SDK
    checkout, under "reclone" only. *)
Definition run_operation {H : Host} (config : Config) (op : Effect) : Prop :=
  match op with
  | Run _ => True
  | Mkdir p =>
      p = parent FlutterManager.flutter_root \/ p = output_dir config
      \/ inside (project_path config) p
  | WriteFile p _ => p = FlutterManager.zprofile \/ inside (project_path config) p
  | AppendFile p _ => p = FlutterManager.zprofile
  | Rmtree p =>
      p = FlutterManager.flutter_root /\ flutter_update_mode config = u "reclone"
  end.


(* ================================================================== *)
(** * Machines to run the program on *)
(* ================================================================== *)

(** Unicode tables that leave every code point above 127 alone; the inputs
    the definitions are run on below are ASCII. *)
Definition ascii_only : Unicode :=
  {| unicode_lower := fun _ c _ => [c]; unicode_isalpha := fun _ => false |}.

(** The second word of a command line. *)
Definition subcommand (c : Command) : str :=
  match argv c with
  | _ :: sub :: _ => sub
  | _ => []
  end.

(** A machine whose only state besides the files is a git checkout, kept as
    the commits of the local branch and of its remote-tracking branch.
    [git merge --ff-only] reports diverged histories, [git rev-list] counts
    them, [git reset --hard <ref>] moves the local branch to [ref]; every
    other program exits with status 0 and prints nothing.  [denied] lists the
    file operations the operating system refuses. *)
Definition sim_rev_parse (o : nat * nat) (ref : str) : nat :=
  if str_eqb ref (u "HEAD") then fst o else snd o.

Definition sim_exec (c : Command) (f : FS) (o : nat * nat)
    : ProcResult * FS * (nat * nat) :=
  if str_eqb (subcommand c) (u "merge") then
    (Exited 1 [] (u "fatal: Not possible to fast-forward, aborting."), f, o)
  else if str_eqb (subcommand c) (u "rev-list") then
    (Exited 0 (u "2" ++ tab ++ u "3" ++ nl) [], f, o)
  else if str_eqb (subcommand c) (u "reset") then
    (Exited 0 [] [], f, (sim_rev_parse o (nth 3 (argv c) []), snd o))
  else (Exited 0 [] [], f, o).

Definition sim_host (denied : IoOp -> bool) : Host :=
  {| joinpath := fun p s => PosixPath (fspath p ++ u "/" ++ s);
     parent := fun p => PosixPath (fspath p ++ u "/..");
     home := PosixPath (u "/Users/dev");
     below := fun p q => startswith (fspath p ++ u "/") (fspath q);
     OS := nat * nat;
     exec := sim_exec;
     os_error := fun op _ _ => if denied op then Some (u "Permission denied") else None;
     str_CalledProcessError := fun _ _ => u "Command returned non-zero exit status.";
     Commit := nat;
     rev_parse := fun _ o _ ref => Some (sim_rev_parse o ref)
  |}.

Definition permissive : IoOp -> bool := fun _ => false.

(** Nothing may be created or written. *)
Definition read_only : IoOp -> bool :=
  fun op => match op with OpRead _ => false | _ => true end.

Definition sim_world (h : Host) (files : FS) (o : @OS h) : @World h :=
  mkWorld (H := h) files o [] [] [].

Definition no_files : FS := fun _ => None.

Definition sample_config (name : string) (plats : list string) (mode : string)
    (dry : bool) : Config :=
  mkConfig (u name) (map u plats) (u "com.example") (u "stable")
    (PosixPath (u "/work")) (u "app") (u "swift") (u "kotlin") (u mode) dry false.

(** A freshly generated entry point. *)
Definition sample_main_dart : str :=
  text_of_lines
    [u "import 'package:flutter/material.dart';";
     u "";
     u "void main() {";
     u "  runApp(const MyApp());";
     u "}"].

(** A machine with no state of its own, on which a program started with the
    command line [c] exits with [status c] and prints nothing. *)
Definition scripted_host (status : Command -> Z) (denied : IoOp -> bool) : Host :=
  {| joinpath := fun p s => PosixPath (fspath p ++ u "/" ++ s);
     parent := fun p => PosixPath (fspath p ++ u "/..");
     home := PosixPath (u "/Users/dev");
     below := fun p q => startswith (fspath p ++ u "/") (fspath q);
     OS := unit;
     exec := fun c f o => (Exited (status c) [] [], f, o);
     os_error := fun op _ _ => if denied op then Some (u "Permission denied") else None;
     str_CalledProcessError := fun _ _ => u "Command returned non-zero exit status.";
     Commit := nat;
     rev_parse := fun _ _ _ _ => None
  |}.

(** [prefix] is the beginning of the command line [words]. *)
Fixpoint startswith_words (prefix words : list str) : bool :=
  match prefix, words with
  | [], _ => true
  | p :: ps, w :: ws => str_eqb p w && startswith_words ps ws
  | _ :: _, [] => false
  end.

(** Every program fails but those whose command line starts with one of
    [good]. *)
Definition fails_unless (good : list (list str)) (c : Command) : Z :=
  if existsb (fun g => startswith_words g (argv c)) good then 0%Z else 1%Z.

(* ================================================================== *)
(** * Strings: lemmas *)
(* ================================================================== *)

Lemma str_eqb_eq (a b : str) : str_eqb a b = true <-> a = b.
Proof.
  unfold str_eqb. destruct (list_eq_dec N.eq_dec a b); split; congruence.
Qed.

Lemma str_eqb_refl (a : str) : str_eqb a a = true.
Proof. apply str_eqb_eq. reflexivity. Qed.

Lemma word_char_ascii (c : N) : word_char c = true -> (c <? 128) = true.
Proof.
  unfold word_char, is_lower_az, is_digit_09, underscore. intros Hc.
  apply N.ltb_lt.
  repeat (apply orb_true_iff in Hc; destruct Hc as [Hc | Hc]);
    try (apply andb_true_iff in Hc; destruct Hc as [_ Hc]; apply N.leb_le in Hc; lia).
  apply N.eqb_eq in Hc. lia.
Qed.

Lemma word_char_not_upper (c : N) : word_char c = true -> is_upper_AZ c = false.
Proof.
  unfold word_char, is_lower_az, is_digit_09, is_upper_AZ, underscore. intros Hc.
  apply andb_false_iff.
  repeat (apply orb_true_iff in Hc; destruct Hc as [Hc | Hc]);
    try (apply andb_true_iff in Hc; destruct Hc as [Hl Hh];
         apply N.leb_le in Hl; apply N.leb_le in Hh).
  - right. apply N.leb_gt. lia.
  - left. apply N.leb_gt. lia.
  - apply N.eqb_eq in Hc. right. apply N.leb_gt. lia.
Qed.

Lemma lower_az_word (c : N) : is_lower_az c = true -> word_char c = true.
Proof. unfold word_char. intros ->. reflexivity. Qed.

Lemma lower_az_not_underscore (c : N) :
  is_lower_az c = true -> in_chars [underscore] c = false.
Proof.
  unfold is_lower_az, in_chars, underscore. simpl. intros Hc.
  apply andb_true_iff in Hc. destruct Hc as [Hl _]. apply N.leb_le in Hl.
  rewrite orb_false_r. apply N.eqb_neq. lia.
Qed.

Lemma re_sub_non_word_all (s : str) : forallb word_char (re_sub_non_word s) = true.
Proof.
  induction s as [| c s IH]; simpl; [reflexivity |].
  rewrite IH, andb_true_r.
  destruct (word_char c) eqn:E; [exact E | reflexivity].
Qed.

Lemma re_sub_non_word_fixed (s : str) :
  forallb word_char s = true -> re_sub_non_word s = s.
Proof.
  induction s as [| c s IH]; simpl; [reflexivity |].
  intros Hs. apply andb_true_iff in Hs. destruct Hs as [Hc Hs].
  rewrite Hc, (IH Hs). reflexivity.
Qed.

Lemma rstrip_cons (chars : list N) (c : N) (s : str) :
  in_chars chars c = false -> rstrip chars (c :: s) = c :: rstrip chars s.
Proof.
  intros Hc. simpl. rewrite Hc. destruct (rstrip chars s); reflexivity.
Qed.

Lemma rstrip_idempotent (chars : list N) (s : str) :
  rstrip chars (rstrip chars s) = rstrip chars s.
Proof.
  induction s as [| c s IH]; simpl; [reflexivity |].
  destruct (rstrip chars s) as [| d r] eqn:E.
  - destruct (in_chars chars c) eqn:Ec; simpl; [reflexivity |].
    rewrite Ec. reflexivity.
  - change (rstrip chars (c :: d :: r)) with
      (match rstrip chars (d :: r) with
       | [] => if in_chars chars c then [] else [c]
       | r' => c :: r'
       end).
    rewrite IH. reflexivity.
Qed.

Lemma rstrip_forallb (P : N -> bool) (chars : list N) (s : str) :
  forallb P s = true -> forallb P (rstrip chars s) = true.
Proof.
  induction s as [| c s IH]; simpl; [reflexivity |].
  intros Hs. apply andb_true_iff in Hs. destruct Hs as [Hc Hs].
  specialize (IH Hs).
  destruct (rstrip chars s) as [| d r].
  - destruct (in_chars chars c); simpl; [reflexivity | rewrite Hc; reflexivity].
  - simpl. simpl in IH. rewrite Hc, IH. reflexivity.
Qed.

Section StringFacts.
Context {U : Unicode}.

Lemma lower_from_word (before s : str) :
  forallb word_char s = true -> lower_from before s = s.
Proof.
  revert before. induction s as [| c s IH]; intros before; simpl; [reflexivity |].
  intros Hs. apply andb_true_iff in Hs. destruct Hs as [Hc Hs].
  unfold lower_char. rewrite (word_char_ascii c Hc), (word_char_not_upper c Hc).
  simpl. rewrite (IH _ Hs). reflexivity.
Qed.

Lemma isalpha_word (c : N) :
  word_char c = true -> isalpha c = is_lower_az c.
Proof.
  intros Hc. unfold isalpha.
  rewrite (word_char_ascii c Hc), (word_char_not_upper c Hc). reflexivity.
Qed.

Lemma strip_letter_first (l : N) (rest : str) :
  is_lower_az l = true ->
  strip [underscore] (l :: rest) = l :: rstrip [underscore] rest.
Proof.
  intros Hl. unfold strip.
  assert (Hn := lower_az_not_underscore l Hl).
  change (lstrip [underscore] (l :: rest)) with
    (if in_chars [underscore] l then lstrip [underscore] rest else l :: rest).
  rewrite Hn. apply rstrip_cons. exact Hn.
Qed.

Lemma canonical_stripped (l : N) (rest : str) :
  is_lower_az l = true -> forallb word_char rest = true ->
  canonical (l :: rstrip [underscore] rest).
Proof.
  intros Hl Hr. split.
  - simpl. rewrite Hl. simpl. apply rstrip_forallb. exact Hr.
  - rewrite rstrip_cons by (apply lower_az_not_underscore; exact Hl).
    rewrite rstrip_idempotent. reflexivity.
Qed.

Lemma sanitize_canonical (name : str) : canonical (_sanitize_package_name name).
Proof.
  unfold _sanitize_package_name.
  assert (Hall := re_sub_non_word_all (lower name)).
  destruct (re_sub_non_word (lower name)) as [| c r] eqn:E.
  - simpl. split; reflexivity.
  - simpl in Hall. apply andb_true_iff in Hall. destruct Hall as [Hc Hr].
    rewrite (isalpha_word c Hc).
    destruct (is_lower_az c) eqn:Hl; simpl negb; cbv iota.
    + rewrite (strip_letter_first c r Hl). simpl truthy. simpl negb. cbv iota.
      apply canonical_stripped; assumption.
    + change (u "app_" ++ c :: r) with (97 :: 112 :: 112 :: 95 :: c :: r).
      rewrite (strip_letter_first 97 (112 :: 112 :: 95 :: c :: r) eq_refl).
      simpl truthy. simpl negb. cbv iota.
      apply canonical_stripped; [reflexivity |].
      simpl. rewrite Hc, Hr. reflexivity.
Qed.

Lemma sanitize_fixed (s : str) : canonical s -> _sanitize_package_name s = s.
Proof.
  intros [Hid Hstrip]. destruct s as [| c r]; [discriminate |].
  simpl in Hid. apply andb_true_iff in Hid. destruct Hid as [Hl Hr].
  assert (Hall : forallb word_char (c :: r) = true).
  { simpl. rewrite (lower_az_word c Hl), Hr. reflexivity. }
  unfold _sanitize_package_name, lower.
  rewrite (lower_from_word [] _ Hall), (re_sub_non_word_fixed _ Hall).
  rewrite (isalpha_word c (lower_az_word c Hl)), Hl. simpl negb. cbv iota.
  rewrite (strip_letter_first c r Hl).
  rewrite (rstrip_cons [underscore] c r (lower_az_not_underscore c Hl)) in Hstrip.
  injection Hstrip as Hstrip. rewrite Hstrip. reflexivity.
Qed.

End StringFacts.

(* ================================================================== *)
(** * config.py: theorems *)
(* ================================================================== *)

Example sanitize_my_test_app :
  @_sanitize_package_name ascii_only (u "My Test App!") = u "my_test_app".
Proof. vm_compute. reflexivity. Qed.

Example sanitize_digits :
  @_sanitize_package_name ascii_only (u "2048") = u "app_2048".
Proof. vm_compute. reflexivity. Qed.

Example sanitize_symbols :
  @_sanitize_package_name ascii_only (u "!!!") = u "app".
Proof. vm_compute. reflexivity. Qed.

Example sanitize_leading_underscore :
  @_sanitize_package_name ascii_only (u "_Ab_") = u "app__ab".
Proof. vm_compute. reflexivity. Qed.

(** C1: whatever the project name, the package identifier derived from it
    matches [^[a-z][a-z0-9_]*$] or is the default token "app"; it is not
    empty, its first code point is a lowercase letter, and lowering it
    changes nothing. *)
Theorem package_name_is_identifier (U : Unicode) (config : Config) :
  (package_identifier (package_name config) = true
   \/ package_name config = u "app")
  /\ package_name config <> []
  /\ (exists c rest, package_name config = c :: rest /\ is_lower_az c = true)
  /\ lower (package_name config) = package_name config.
Proof.
  unfold package_name.
  destruct (sanitize_canonical (project_name config)) as [Hid Hstrip].
  destruct (_sanitize_package_name (project_name config)) as [| c r] eqn:E;
    [discriminate |].
  pose proof Hid as Hid'. simpl in Hid'. apply andb_true_iff in Hid'.
  destruct Hid' as [Hl Hr].
  repeat split.
  - left. exact Hid.
  - discriminate.
  - exists c, r. split; [reflexivity | exact Hl].
  - apply lower_from_word. simpl. rewrite (lower_az_word c Hl), Hr. reflexivity.
Qed.

(** C10: sanitizing a sanitized package name returns it unchanged. *)
Theorem sanitize_package_name_idempotent (U : Unicode) (name : str) :
  _sanitize_package_name (_sanitize_package_name name) = _sanitize_package_name name.
Proof. apply sanitize_fixed. apply sanitize_canonical. Qed.

Lemma validate_platforms_spec (U : Unicode) (ps : list str) :
  match validate_platforms ps with
  | Ok _ => Forall (fun p => str_in (lower p) valid_platforms = true) ps
  | Raise e =>
      exists pre p post,
        ps = pre ++ p :: post
        /\ Forall (fun q => str_in (lower q) valid_platforms = true) pre
        /\ str_in (lower p) valid_platforms = false
        /\ e = mkExn ValueError (u "Invalid platform: " ++ p)
  end.
Proof.
  induction ps as [| p ps IH]; cbn [validate_platforms].
  - constructor.
  - destruct (str_in (lower p) valid_platforms) eqn:Ep; cbn [negb].
    + destruct (validate_platforms ps) as [[] | e].
      * constructor; assumption.
      * destruct IH as (pre & q & post & -> & Hpre & Hq & ->).
        exists (p :: pre), q, post. repeat split; try assumption.
        constructor; assumption.
    + exists [], p, ps. repeat split; try assumption. constructor.
Qed.

Lemma Forall_first_failure {A} (P Q : A -> Prop) (pre pre' : list A) (p p' : A)
    (post post' : list A) :
  (forall x, P x -> Q x -> False) ->
  pre ++ p :: post = pre' ++ p' :: post' ->
  Forall P pre -> Q p -> Forall P pre' -> Q p' ->
  pre = pre' /\ p = p' /\ post = post'.
Proof.
  intros HPQ. revert pre'. induction pre as [| a pre IH]; intros [| a' pre'] E Hpre Hp Hpre' Hp';
    simpl in E.
  - injection E as -> ->. repeat split.
  - injection E as -> _. inversion Hpre'; subst. exfalso. eauto.
  - injection E as -> _. inversion Hpre; subst. exfalso. eauto.
  - injection E as -> E. inversion Hpre; subst. inversion Hpre'; subst.
    destruct (IH pre' E) as (-> & -> & ->); auto.
Qed.

(** The test of [test_invalid_platforms], on the model. *)
Example invalid_platform_named :
  @Config_init ascii_only (u "TestApp") [u "ios"; u "invalid"] (u "com.test")
    (u "stable") (PosixPath (u ".")) (u "app") (u "swift") (u "kotlin") (u "reset")
    false false
  = Raise (mkExn ValueError (u "Invalid platform: invalid")).
Proof. vm_compute. reflexivity. Qed.

(** The test of [test_empty_platforms], on the model. *)
Example empty_platforms_rejected :
  @Config_init ascii_only (u "TestApp") [] (u "com.test")
    (u "stable") (PosixPath (u ".")) (u "app") (u "swift") (u "kotlin") (u "reset")
    false false
  = Raise (mkExn ValueError (u "At least one platform must be specified")).
Proof. vm_compute. reflexivity. Qed.

(** C4, as the claim states it, fails: the constructor called with an empty
    project name raises [ValueError], which is not a [ConfigurationError],
    and its message is not "project name required". *)
Lemma empty_name_not_ConfigurationError :
  exists e,
    @Config_init ascii_only (u "") [u "ios"] (u "com.test") (u "stable")
      (PosixPath (u ".")) (u "app") (u "swift") (u "kotlin") (u "reset") false false
    = Raise e
    /\ isinstance e ConfigurationError = false
    /\ str_eqb (exn_str e) (u "project name required") = false.
Proof.
  exists (mkExn ValueError (u "Project name cannot be empty")).
  vm_compute. repeat split.
Qed.

(** C4, amended: constructing a configuration with an empty project name
    fails whatever the other fields are; the exception is a [ValueError] and
    its message is "Project name cannot be empty" (what [test_config.py]
    expects). *)
Theorem empty_name_raises_ValueError (U : Unicode)
    (tokens : list str) (organization branch : str) (dir : Path)
    (kind ios android mode : str) (dry loud : bool) :
  Config_init [] tokens organization branch dir kind ios android mode dry loud
  = Raise (mkExn ValueError (u "Project name cannot be empty")).
Proof. reflexivity. Qed.

(** C5, as the claim states it, fails twice.  A platform list with the token
    "IOS", which is not in the enumeration, is accepted, and the validated
    configuration keeps that token; and with an empty project name the error
    names the project name, not the token outside the enumeration. *)
Lemma uppercase_platform_accepted :
  (exists config,
     @Config_init ascii_only (u "TestApp") [u "IOS"] (u "com.test") (u "stable")
       (PosixPath (u ".")) (u "app") (u "swift") (u "kotlin") (u "reset") false false
     = Ok config
     /\ platforms config = [u "IOS"]
     /\ str_in (u "IOS") valid_platforms = false)
  /\ @Config_init ascii_only (u "") [u "invalid"] (u "com.test") (u "stable")
       (PosixPath (u ".")) (u "app") (u "swift") (u "kotlin") (u "reset") false false
     = Raise (mkExn ValueError (u "Project name cannot be empty")).
Proof.
  split.
  - eexists. vm_compute. repeat split.
  - vm_compute. reflexivity.
Qed.

(** C5, amended: platform tokens are compared after lowering.  When the
    project name is not empty and some token of the platform list, lowered,
    is outside the enumeration, construction fails with "Invalid platform: "
    followed by the first such token as it was given; and every token of a
    configuration that was constructed is, lowered, in the enumeration. *)
Theorem invalid_platform_rejected (U : Unicode)
    (name : str) (tokens : list str) (organization branch : str)
    (dir : Path) (kind ios android mode : str) (dry loud : bool) :
  name <> [] ->
  (forall pre p post,
     tokens = pre ++ p :: post ->
     Forall (fun q => str_in (lower q) valid_platforms = true) pre ->
     str_in (lower p) valid_platforms = false ->
     Config_init name tokens organization branch dir kind ios android mode dry loud
     = Raise (mkExn ValueError (u "Invalid platform: " ++ p)))
  /\ (forall config,
        Config_init name tokens organization branch dir kind ios android mode dry
          loud
        = Ok config ->
        Forall (fun p => str_in (lower p) valid_platforms = true)
          (platforms config)).
Proof.
  intros Hname.
  assert (Hn : negb (truthy name) = false).
  { destruct name; [contradiction | reflexivity]. }
  pose proof (validate_platforms_spec U tokens) as Hspec.
  unfold Config_init, _validate.
  cbn [project_name platforms template ios_language android_language].
  rewrite Hn.
  split.
  - intros pre p post Eps Hpre Hp.
    assert (Hp' : negb (truthy tokens) = false).
    { rewrite Eps. destruct pre; reflexivity. }
    rewrite Hp'.
    destruct (validate_platforms tokens) as [[] | e].
    + exfalso. rewrite Eps in Hspec. apply Forall_app in Hspec.
      destruct Hspec as [_ Hspec]. apply Forall_inv in Hspec. cbv beta in Hspec.
      congruence.
    + destruct Hspec as (pre' & p' & post' & Eps' & Hpre' & Hp'' & ->).
      rewrite Eps in Eps'.
      destruct (Forall_first_failure
                  (fun q => str_in (lower q) valid_platforms = true)
                  (fun q => str_in (lower q) valid_platforms = false)
                  pre pre' p p' post post') as (_ & -> & _); auto.
      intros x Hx Hx'. congruence.
  - intros config.
    destruct (negb (truthy tokens)); [discriminate |].
    destruct (validate_platforms tokens) as [[] | e]; [| discriminate].
    destruct (str_eqb kind (u "plugin")).
    + destruct (negb (str_in ios [u "swift"; u "objc"])); [discriminate |].
      destruct (negb (str_in android [u "kotlin"; u "java"]));
        [discriminate |].
      intros E. injection E as <-. exact Hspec.
    + intros E. injection E as <-. exact Hspec.
Qed.

Lemma invalid_platform_rejected_witness :
  @Config_init ascii_only (u "TestApp") [u "ios"; u "Invalid"] (u "com.test")
    (u "stable") (PosixPath (u ".")) (u "app") (u "swift") (u "kotlin") (u "reset")
    false false
  = Raise (mkExn ValueError (u "Invalid platform: Invalid")).
Proof.
  refine (proj1 (invalid_platform_rejected ascii_only (u "TestApp")
                   [u "ios"; u "Invalid"] (u "com.test") (u "stable")
                   (PosixPath (u ".")) (u "app") (u "swift") (u "kotlin") (u "reset")
                   false false _)
            [u "ios"] (u "Invalid") [] _ _ _).
  - discriminate.
  - reflexivity.
  - constructor; [reflexivity | constructor].
  - reflexivity.
Defined.

(* ================================================================== *)
(** * The stages: theorems *)
(* ================================================================== *)

Arguments u : simpl never.

Ltac py_unfold :=
  unfold bind, ret, raise, reraise, try_except, console_print, console_print_panel,
    progress_add_task, progress_update, path_exists.







Lemma subprocess_run_exited {H : Host} (cmd : Command) (check : bool) (w : World)
    {rc out err f' o'} :
  exec cmd (fs w) (os w) = (Exited rc out err, f', o') ->
  subprocess_run cmd check w
  = (if check && negb (rc =? 0)%Z
     then Raise (mkExn CalledProcessError (str_CalledProcessError (argv cmd) rc))
     else Ok (mkCompleted rc out err),
     set_machine f' o' (record (Run cmd) w)).
Proof.
  intros E. unfold subprocess_run. rewrite E.
  destruct (check && negb (rc =? 0)%Z); reflexivity.
Qed.

Lemma subprocess_run_not_started {H : Host} (cmd : Command) (check : bool)
    (w : World) {reason f' o'} :
  exec cmd (fs w) (os w) = (NotStarted reason, f', o') ->
  subprocess_run cmd check w
  = (Raise (mkExn OSError reason), set_machine f' o' (record (Run cmd) w)).
Proof. intros E. unfold subprocess_run. rewrite E. reflexivity. Qed.

Lemma mode_reset_not_skip : str_eqb (u "reset") (u "skip") = false.
Proof. vm_compute. reflexivity. Qed.

(** The block of [_handle_diverged_branches] that counts the commits: when
    [git rev-list] runs, whatever its exit status, the block ends normally
    and has attempted that one command. *)
Lemma commit_counts_swallowed {H : Host} (config : Config) (w : World)
    {rc out err f1 o1} :
  exec (FlutterManager.rev_list_command config) (fs w) (os w)
    = (Exited rc out err, f1, o1) ->
  exists w1,
    try_except
      (result <- subprocess_run (FlutterManager.rev_list_command config) true ;;
       match split_ws (strip_ws (stdout result)) with
       | [left_ahead; right_ahead] =>
           console_print
             (u "  📊 Local ahead by: " ++ right_ahead
                ++ u ", origin ahead by: " ++ left_ahead)
       | _ => ret tt
       end)
      CalledProcessError
      (fun _ => ret tt) w = (Ok tt, w1)
    /\ fs w1 = f1 /\ os w1 = o1
    /\ effects w1 = effects w ++ [Run (FlutterManager.rev_list_command config)].
Proof.
  intros E. unfold try_except, bind.
  rewrite (subprocess_run_exited _ true w E). cbn [andb].
  destruct (negb (rc =? 0)%Z).
  - cbn [isinstance exn_class issubclass ExnClass_eqb orb]. unfold ret.
    eexists. split; [reflexivity |]. repeat split.
  - cbn [stdout].
    destruct (split_ws (strip_ws out)) as [| a [| b [| c l]]]; unfold ret, console_print;
      eexists; (split; [reflexivity |]); repeat split.
Qed.

(** The handler of that block is for [CalledProcessError] only: when
    [git rev-list] cannot be started under "reset", the [OSError] leaves
    [_handle_diverged_branches] and the reset is not attempted. *)
Lemma commit_counts_not_started {H : Host} (config : Config) (w : World)
    reason f1 o1 :
  flutter_update_mode config = u "reset" ->
  exec (FlutterManager.rev_list_command config) (fs w) (os w)
    = (NotStarted reason, f1, o1) ->
  exists w',
    FlutterManager._handle_diverged_branches config w
    = (Raise (mkExn OSError reason), w')
    /\ effects w' = effects w ++ [Run (FlutterManager.rev_list_command config)].
Proof.
  intros Hmode E. unfold FlutterManager._handle_diverged_branches.
  rewrite Hmode, mode_reset_not_skip.
  unfold bind at 1. unfold console_print at 1. cbv beta iota.
  unfold bind at 1. unfold try_except at 1. unfold bind at 1.
  match goal with
  | |- context [subprocess_run ?c ?k ?v] =>
      rewrite (subprocess_run_not_started c k v E)
  end.
  cbn [isinstance exn_class issubclass ExnClass_eqb orb].
  eexists. split; reflexivity.
Qed.




(* ================================================================== *)
(** * bootstrap.py: the edit of [lib/main.dart] *)
(* ================================================================== *)

Lemma startswith_length (p s : str) :
  startswith p s = true -> (List.length p <= List.length s)%nat.
Proof.
  revert s. induction p as [| a p IH]; intros [| c s] E; simpl in *;
    try discriminate; try lia.
  apply andb_true_iff in E. destruct E as [_ E]. apply IH in E. lia.
Qed.

Lemma startswith_app_l (p s t : str) :
  startswith p s = true -> startswith p (s ++ t) = true.
Proof.
  revert s. induction p as [| a p IH]; intros [| c s] E; simpl in *;
    try discriminate; try reflexivity.
  apply andb_true_iff in E. destruct E as [Ea E].
  rewrite Ea, (IH _ E). reflexivity.
Qed.

(** A separator that does not occur in the pattern cannot be part of a
    match. *)
Lemma startswith_before_sep (sep : N) (p s t : str) :
  ~ In sep p -> startswith p (s ++ sep :: t) = startswith p s.
Proof.
  revert s. induction p as [| a p IH]; intros s Hsep; [destruct s; reflexivity |].
  destruct s as [| c s]; simpl.
  - destruct (N.eqb_spec a sep) as [-> | _]; [| reflexivity].
    exfalso. apply Hsep. left. reflexivity.
  - rewrite IH; [reflexivity |]. intros Hin. apply Hsep. right. exact Hin.
Qed.

Lemma contains_empty_hay (m : str) : contains m [] = true -> m = [].
Proof. destruct m; [reflexivity | discriminate]. Qed.

Lemma contains_app_r (m a b : str) :
  contains m b = true -> contains m (a ++ b) = true.
Proof.
  intros Hb. induction a as [| c a IH]; [exact Hb |].
  change (contains m ((c :: a) ++ b)) with
    (startswith m (c :: a ++ b) || contains m (a ++ b)).
  rewrite IH. apply orb_true_r.
Qed.

Lemma contains_app_l (m a b : str) :
  contains m a = true -> contains m (a ++ b) = true.
Proof.
  induction a as [| c a IH]; intros Ha.
  - apply contains_empty_hay in Ha. subst m. destruct b; reflexivity.
  - change (contains m ((c :: a) ++ b)) with
      (startswith m ((c :: a) ++ b) || contains m (a ++ b)).
    change (contains m (c :: a)) with (startswith m (c :: a) || contains m a) in Ha.
    apply orb_true_iff in Ha. destruct Ha as [Ha | Ha].
    + rewrite (startswith_app_l _ _ b Ha). reflexivity.
    + rewrite (IH Ha). apply orb_true_r.
Qed.

Lemma contains_join (m sep line : str) (lines : list str) :
  In line lines -> contains m line = true -> contains m (join sep lines) = true.
Proof.
  intros Hin Hm. induction lines as [| l rest IH]; [contradiction |].
  destruct rest as [| l2 rest].
  - destruct Hin as [-> | []]. exact Hm.
  - change (join sep (l :: l2 :: rest)) with (l ++ sep ++ join sep (l2 :: rest)).
    destruct Hin as [-> | Hin].
    + apply contains_app_l. exact Hm.
    + apply contains_app_r. apply contains_app_r. apply IH. exact Hin.
Qed.

Section ReplaceLines.
Variables (old new : str) (sep : N).
Hypothesis old_not_empty : old <> [].
Hypothesis sep_not_in_old : ~ In sep old.

Lemma replace_from_sep (a b : str) (skip : nat) :
  (skip <= List.length a)%nat ->
  replace_from old new (a ++ sep :: b) skip
  = replace_from old new a skip ++ sep :: replace_from old new b 0.
Proof.
  revert skip. induction a as [| c a IH]; intros skip Hskip.
  - assert (skip = 0%nat) as -> by (simpl in Hskip; lia).
    change (replace_from old new ([] ++ sep :: b) 0) with
      (if startswith old (sep :: b) then
         new ++ replace_from old new b (List.length old - 1)
       else sep :: replace_from old new b 0).
    pose proof (startswith_before_sep sep old [] b sep_not_in_old) as E.
    cbn [app] in E. rewrite E.
    destruct old; [contradiction | reflexivity].
  - destruct skip as [| k].
    + change (replace_from old new ((c :: a) ++ sep :: b) 0) with
        (if startswith old ((c :: a) ++ sep :: b) then
           new ++ replace_from old new (a ++ sep :: b) (List.length old - 1)
         else c :: replace_from old new (a ++ sep :: b) 0).
      change (replace_from old new (c :: a) 0) with
        (if startswith old (c :: a) then
           new ++ replace_from old new a (List.length old - 1)
         else c :: replace_from old new a 0).
      rewrite (startswith_before_sep sep old (c :: a) b sep_not_in_old).
      destruct (startswith old (c :: a)) eqn:E.
      * apply startswith_length in E. simpl in E.
        rewrite IH by lia. rewrite app_assoc. reflexivity.
      * rewrite IH by lia. reflexivity.
    + change (replace_from old new ((c :: a) ++ sep :: b) (S k)) with
        (replace_from old new (a ++ sep :: b) k).
      change (replace_from old new (c :: a) (S k)) with (replace_from old new a k).
      apply IH. simpl in Hskip. lia.
Qed.

Lemma replace_is_replace_from (s : str) : replace old new s = replace_from old new s 0.
Proof. unfold replace. destruct old; [contradiction | reflexivity]. Qed.

(** Replacing in a text is replacing in each of its lines. *)
Lemma replace_join (lines : list str) :
  replace old new (join [sep] lines) = join [sep] (map (replace old new) lines).
Proof.
  induction lines as [| l rest IH].
  - rewrite replace_is_replace_from. reflexivity.
  - destruct rest as [| l2 rest]; [reflexivity |].
    change (join [sep] (l :: l2 :: rest)) with (l ++ sep :: join [sep] (l2 :: rest)).
    change (join [sep] (map (replace old new) (l :: l2 :: rest))) with
      (replace old new l ++ sep :: join [sep] (map (replace old new) (l2 :: rest))).
    rewrite <- IH. rewrite !replace_is_replace_from.
    apply replace_from_sep. lia.
Qed.

End ReplaceLines.

Lemma In_list_insert {A} (i : Z) (x : A) (l : list A) : In x (list_insert i x l).
Proof. unfold list_insert. apply in_or_app. right. left. reflexivity. Qed.

Lemma list_insert_0 {A} (x : A) (l : list A) : list_insert 0%Z x l = x :: l.
Proof.
  unfold list_insert. change (0 <? 0)%Z with false. cbv iota.
  rewrite Z.min_l by lia. reflexivity.
Qed.

Lemma list_insert_after {A} (x a : A) (pre post : list A) :
  list_insert (Z.of_nat (List.length pre) + 1)%Z x (pre ++ a :: post)
  = pre ++ a :: x :: post.
Proof.
  unfold list_insert.
  destruct (Z.ltb_spec (Z.of_nat (List.length pre) + 1) 0) as [Hneg | _]; [lia |].
  rewrite length_app. cbn [List.length].
  rewrite Z.min_l by lia.
  replace (Z.to_nat (Z.of_nat (List.length pre) + 1)) with (S (List.length pre)) by lia.
  replace (S (List.length pre)) with (List.length (pre ++ [a]))
    by (rewrite length_app; simpl; lia).
  replace (pre ++ a :: post) with ((pre ++ [a]) ++ post)
    by (rewrite <- app_assoc; reflexivity).
  rewrite firstn_app, skipn_app, Nat.sub_diag, firstn_all, skipn_all.
  simpl. rewrite app_nil_r, <- app_assoc. reflexivity.
Qed.

Lemma find_import_index_none (i : Z) (lines : list str) :
  Forall (fun l => is_flutter_import l = false) lines ->
  find_import_index i lines = (-1)%Z.
Proof.
  intros Hall. revert i. induction Hall as [| l rest Hl _ IH]; intros i; simpl.
  - reflexivity.
  - rewrite Hl. apply IH.
Qed.

Lemma find_import_index_first (i : Z) (pre post : list str) (line : str) :
  Forall (fun l => is_flutter_import l = false) pre ->
  is_flutter_import line = true ->
  find_import_index i (pre ++ line :: post) = (i + Z.of_nat (List.length pre))%Z.
Proof.
  intros Hpre Hline. revert i. induction Hpre as [| l rest Hl _ IH]; intros i.
  - cbn [app find_import_index List.length]. rewrite Hline. simpl. lia.
  - cbn [app find_import_index List.length]. rewrite Hl, IH. lia.
Qed.

Lemma newline_not_in_main_opening : ~ In newline main_opening.
Proof.
  vm_compute. intros Hin.
  repeat (destruct Hin as [Hin | Hin]; [discriminate Hin |]). exact Hin.
Qed.

Lemma main_opening_not_empty : main_opening <> [].
Proof. vm_compute. discriminate. Qed.

Lemma dotenv_import_not_rewritten :
  replace main_opening main_with_load dotenv_import = dotenv_import.
Proof. vm_compute. reflexivity. Qed.

Lemma dotenv_import_has_marker : contains dotenv_marker dotenv_import = true.
Proof. vm_compute. reflexivity. Qed.

(** The text written back always holds the marker: the inserted import is a
    line of its own, which the rewriting of the opening of [main] leaves as
    it is. *)
Lemma add_dotenv_loading_marked (content : str) :
  contains dotenv_marker (add_dotenv_loading content) = true.
Proof.
  unfold add_dotenv_loading.
  set (lines := split_char newline content).
  set (lines' := if (find_import_index 0 lines >=? 0)%Z
                 then list_insert (find_import_index 0 lines + 1) dotenv_import lines
                 else list_insert 0 dotenv_import lines).
  assert (Hin : In dotenv_import lines').
  { unfold lines'. destruct (find_import_index 0 lines >=? 0)%Z; apply In_list_insert. }
  unfold nl.
  rewrite (replace_join main_opening main_with_load newline main_opening_not_empty
             newline_not_in_main_opening).
  apply contains_join with (line := dotenv_import).
  - rewrite <- dotenv_import_not_rewritten. apply in_map. exact Hin.
  - exact dotenv_import_has_marker.
Qed.

(** Where the import goes: after the first line that imports a
    [package:flutter...] library, or on top when there is none. *)
Lemma add_dotenv_loading_position (content : str) :
  (forall pre line post,
     split_char newline content = pre ++ line :: post ->
     Forall (fun l => is_flutter_import l = false) pre ->
     is_flutter_import line = true ->
     add_dotenv_loading content
     = replace main_opening main_with_load
         (join nl (pre ++ line :: dotenv_import :: post)))
  /\ (Forall (fun l => is_flutter_import l = false) (split_char newline content) ->
      add_dotenv_loading content
      = replace main_opening main_with_load
          (join nl (dotenv_import :: split_char newline content))).
Proof.
  unfold add_dotenv_loading. split.
  - intros pre line post -> Hpre Hline.
    rewrite (find_import_index_first 0 pre post line Hpre Hline).
    destruct (Z.geb_spec (0 + Z.of_nat (List.length pre)) 0) as [_ | Hneg]; [| lia].
    rewrite Z.add_0_l, list_insert_after. reflexivity.
  - intros Hnone. rewrite (find_import_index_none 0 _ Hnone).
    change (-1 >=? 0)%Z with false. cbv iota.
    rewrite list_insert_0. reflexivity.
Qed.

Lemma Path_eqb_refl (p : Path) : Path_eqb p p = true.
Proof. apply str_eqb_refl. Qed.

Lemma update_same (f : FS) (p : Path) (n : option Node) : update f p n p = n.
Proof. unfold update. rewrite Path_eqb_refl. reflexivity. Qed.

Section ModifyMainDart.
Context {U : Unicode} {H : Host}.
Variable config : Config.

Local Abbreviation main_dart := (ProjectBootstrap.main_dart config).
Local Abbreviation _modify_main_dart := (ProjectBootstrap._modify_main_dart config).

Lemma modify_absent (w : World) :
  fs w main_dart = None -> _modify_main_dart w = (Ok tt, w).
Proof.
  intros E. unfold ProjectBootstrap._modify_main_dart.
  unfold bind, path_exists. rewrite E. reflexivity.
Qed.

Lemma modify_unreadable (w : World) {n : Node} {reason : str} :
  fs w main_dart = Some n ->
  os_error (OpRead main_dart) (fs w) (os w) = Some reason ->
  _modify_main_dart w = (Ok tt, show (main_dart_warning reason) w).
Proof.
  intros E Er. unfold ProjectBootstrap._modify_main_dart.
  unfold bind, path_exists, try_except, read_text.
  rewrite E. cbv beta iota. cbn [negb]. rewrite Er, ?E. reflexivity.
Qed.

Lemma modify_directory (w : World) :
  fs w main_dart = Some Dir ->
  os_error (OpRead main_dart) (fs w) (os w) = None ->
  _modify_main_dart w = (Ok tt, show (main_dart_warning (u "Is a directory")) w).
Proof.
  intros E Er. unfold ProjectBootstrap._modify_main_dart.
  unfold bind, path_exists, try_except, read_text.
  rewrite E. cbv beta iota. cbn [negb]. rewrite Er, ?E. reflexivity.
Qed.

Lemma modify_marked (w : World) {content : str} :
  fs w main_dart = Some (File content) ->
  os_error (OpRead main_dart) (fs w) (os w) = None ->
  contains dotenv_marker content = true ->
  _modify_main_dart w = (Ok tt, w).
Proof.
  intros E Er Hm. unfold ProjectBootstrap._modify_main_dart.
  unfold bind, path_exists, try_except, read_text.
  rewrite E. cbv beta iota. cbn [negb]. rewrite Er, ?E. cbv beta iota.
  rewrite Hm. reflexivity.
Qed.

Lemma modify_unwritable (w : World) {content reason : str} :
  fs w main_dart = Some (File content) ->
  os_error (OpRead main_dart) (fs w) (os w) = None ->
  contains dotenv_marker content = false ->
  os_error (OpWrite main_dart) (fs w) (os w) = Some reason ->
  _modify_main_dart w
  = (Ok tt,
     show (main_dart_warning reason)
       (record (WriteFile main_dart (add_dotenv_loading content)) w)).
Proof.
  intros E Er Hm Ew. unfold ProjectBootstrap._modify_main_dart.
  unfold bind, path_exists, try_except, read_text, write_text.
  rewrite E. cbv beta iota. cbn [negb]. rewrite Er, ?E. cbv beta iota.
  rewrite Hm. cbn [negb]. rewrite Ew, ?E. reflexivity.
Qed.

Lemma modify_written (w : World) {content : str} :
  fs w main_dart = Some (File content) ->
  os_error (OpRead main_dart) (fs w) (os w) = None ->
  contains dotenv_marker content = false ->
  os_error (OpWrite main_dart) (fs w) (os w) = None ->
  _modify_main_dart w
  = (Ok tt,
     set_fs (update (fs w) main_dart (Some (File (add_dotenv_loading content))))
       (record (WriteFile main_dart (add_dotenv_loading content)) w)).
Proof.
  intros E Er Hm Ew. unfold ProjectBootstrap._modify_main_dart.
  unfold bind, path_exists, try_except, read_text, write_text.
  rewrite E. cbv beta iota. cbn [negb]. rewrite Er, ?E. cbv beta iota.
  rewrite Hm. cbn [negb]. rewrite Ew, ?E. reflexivity.
Qed.


(** What a second application finds: nothing to write. *)
Lemma modify_twice (w : World) :
  fs (snd (_modify_main_dart (snd (_modify_main_dart w))))
  = fs (snd (_modify_main_dart w)).
Proof.
  destruct (fs w main_dart) as [[content |] |] eqn:E.
  - destruct (os_error (OpRead main_dart) (fs w) (os w)) as [reason |] eqn:Er.
    + rewrite (modify_unreadable w E Er). cbn [snd].
      rewrite (modify_unreadable (show (main_dart_warning reason) w) E Er).
      reflexivity.
    + destruct (contains dotenv_marker content) eqn:Hm.
      * rewrite (modify_marked w E Er Hm). cbn [snd].
        rewrite (modify_marked w E Er Hm). reflexivity.
      * destruct (os_error (OpWrite main_dart) (fs w) (os w)) as [reason |] eqn:Ew.
        -- rewrite (modify_unwritable w E Er Hm Ew). cbn [snd].
           rewrite (modify_unwritable
                      (show (main_dart_warning reason)
                         (record (WriteFile main_dart (add_dotenv_loading content)) w))
                      E Er Hm Ew).
           reflexivity.
        -- rewrite (modify_written w E Er Hm Ew). cbn [snd].
           set (w1 := set_fs _ _).
           assert (E1 : fs w1 main_dart = Some (File (add_dotenv_loading content))).
           { unfold w1. cbn [fs set_fs]. apply update_same. }
           destruct (os_error (OpRead main_dart) (fs w1) (os w1)) as [reason |] eqn:Er1.
           ++ rewrite (modify_unreadable w1 E1 Er1). reflexivity.
           ++ rewrite (modify_marked w1 E1 Er1 (add_dotenv_loading_marked content)).
              reflexivity.
  - destruct (os_error (OpRead main_dart) (fs w) (os w)) as [reason |] eqn:Er.
    + rewrite (modify_unreadable w E Er). cbn [snd].
      rewrite (modify_unreadable (show (main_dart_warning reason) w) E Er).
      reflexivity.
    + rewrite (modify_directory w E Er). cbn [snd].
      rewrite (modify_directory
                 (show (main_dart_warning (u "Is a directory")) w) E Er).
      reflexivity.
  - rewrite (modify_absent w E). cbn [snd]. rewrite (modify_absent w E). reflexivity.
Qed.

End ModifyMainDart.

(** C9: when [lib/main.dart] holds the marker "flutter_dotenv", the edit
    leaves the files alone and attempts no write; applied twice in a row,
    from any state, its second application leaves the files as the first
    left them (the text the first one writes holds the marker); and when the
    marker is absent the new import is put right after the first line that
    imports a [package:flutter...] library, or on top when no line does. *)
Theorem modify_main_dart_idempotent (U : Unicode) (H : Host) (config : Config) :
  (forall w content,
     fs w (ProjectBootstrap.main_dart config) = Some (File content) ->
     contains dotenv_marker content = true ->
     exists w',
       ProjectBootstrap._modify_main_dart config w = (Ok tt, w')
       /\ fs w' = fs w /\ effects w' = effects w)
  /\ (forall w,
        fs (snd (ProjectBootstrap._modify_main_dart config
                   (snd (ProjectBootstrap._modify_main_dart config w))))
        = fs (snd (ProjectBootstrap._modify_main_dart config w)))
  /\ (forall content, contains dotenv_marker (add_dotenv_loading content) = true)
  /\ (forall w content,
        fs w (ProjectBootstrap.main_dart config) = Some (File content) ->
        contains dotenv_marker content = false ->
        os_error (OpRead (ProjectBootstrap.main_dart config)) (fs w) (os w) = None ->
        os_error (OpWrite (ProjectBootstrap.main_dart config)) (fs w) (os w) = None ->
        exists w',
          ProjectBootstrap._modify_main_dart config w = (Ok tt, w')
          /\ fs w' (ProjectBootstrap.main_dart config)
             = Some (File (add_dotenv_loading content)))
  /\ (forall content pre line post,
        split_char newline content = pre ++ line :: post ->
        Forall (fun l => is_flutter_import l = false) pre ->
        is_flutter_import line = true ->
        add_dotenv_loading content
        = replace main_opening main_with_load
            (join nl (pre ++ line :: dotenv_import :: post)))
  /\ (forall content,
        Forall (fun l => is_flutter_import l = false) (split_char newline content) ->
        add_dotenv_loading content
        = replace main_opening main_with_load
            (join nl (dotenv_import :: split_char newline content))).
Proof.
  split; [| split; [| split; [| split; [| split]]]].
  - intros w content E Hm.
    destruct (os_error (OpRead (ProjectBootstrap.main_dart config)) (fs w) (os w))
      as [reason |] eqn:Er.
    + eexists. split; [apply (modify_unreadable config w E Er) |]. split; reflexivity.
    + eexists. split; [apply (modify_marked config w E Er Hm) |]. split; reflexivity.
  - apply modify_twice.
  - apply add_dotenv_loading_marked.
  - intros w content E Hm Er Ew.
    eexists. split; [apply (modify_written config w E Er Hm Ew) |].
    cbn [fs set_fs]. apply update_same.
  - intros content. apply (proj1 (add_dotenv_loading_position content)).
  - intros content. apply (proj2 (add_dotenv_loading_position content)).
Qed.

Example sample_main_dart_edited :
  add_dotenv_loading sample_main_dart
  = text_of_lines
      [u "import 'package:flutter/material.dart';";
       u "import 'package:flutter_dotenv/flutter_dotenv.dart';";
       u "";
       u "Future<void> main() async {";
       u "  await dotenv.load(fileName: " ++ dquote ++ u ".env" ++ dquote ++ u ");";
       u "  runApp(const MyApp());";
       u "}"].
Proof. vm_compute. reflexivity. Qed.

Example no_import_goes_on_top :
  add_dotenv_loading (u "void main() => run();")
  = u "import 'package:flutter_dotenv/flutter_dotenv.dart';" ++ nl
      ++ u "void main() => run();".
Proof. vm_compute. reflexivity. Qed.

Lemma modify_main_dart_idempotent_witness :
  let h := sim_host permissive in
  let config := sample_config "demo" ["web"%string] "reset" false in
  let main := ProjectBootstrap.main_dart (H := h) config in
  let w := sim_world h (update no_files main (Some (File sample_main_dart))) (1, 2)%nat in
  exists w',
    ProjectBootstrap._modify_main_dart (H := h) config w = (Ok tt, w')
    /\ fs w' main = Some (File (add_dotenv_loading sample_main_dart)).
Proof.
  intros h config main w.
  apply (proj1 (proj2 (proj2 (proj2
           (modify_main_dart_idempotent ascii_only h config)))) w sample_main_dart).
  - vm_compute. reflexivity.
  - vm_compute. reflexivity.
  - reflexivity.
  - reflexivity.
Defined.

(* ================================================================== *)
(** * Which operations a piece of code can attempt *)
(* ================================================================== *)

Section Attempts.
Context {H : Host}.
Variable P : Effect -> Prop.

Lemma attempts_nothing {A} (m : Py A) :
  (forall w, effects (snd (m w)) = effects w) -> attempts P m.
Proof.
  intros Hm w. exists []. rewrite app_nil_r. split; [apply Hm | constructor].
Qed.

Lemma attempts_one {A} (m : Py A) (op : Effect) :
  P op -> (forall w, effects (snd (m w)) = effects w ++ [op]) -> attempts P m.
Proof.
  intros Hop Hm w. exists [op]. split; [apply Hm | repeat constructor; exact Hop].
Qed.

Lemma attempts_ret {A} (a : A) : attempts P (ret a).
Proof. apply attempts_nothing. reflexivity. Qed.

Lemma attempts_raise {A} (c : ExnClass) (msg : str) : attempts P (raise (A := A) c msg).
Proof. apply attempts_nothing. reflexivity. Qed.

Lemma attempts_reraise {A} (e : Exn) : attempts P (reraise (A := A) e).
Proof. apply attempts_nothing. reflexivity. Qed.

Lemma attempts_console_print (text : str) : attempts P (console_print text).
Proof. apply attempts_nothing. reflexivity. Qed.

Lemma attempts_path_exists (p : Path) : attempts P (path_exists p).
Proof. apply attempts_nothing. reflexivity. Qed.

Lemma attempts_sys_path_ensure (x : str) : attempts P (sys_path_ensure x).
Proof.
  apply attempts_nothing. intros w. unfold sys_path_ensure.
  destruct (str_in x (sys_path w)); reflexivity.
Qed.

Lemma attempts_read_text (p : Path) : attempts P (read_text p).
Proof.
  apply attempts_nothing. intros w. unfold read_text.
  destruct (os_error (OpRead p) (fs w) (os w)); [reflexivity |].
  destruct (fs w p) as [[text |] |]; reflexivity.
Qed.

Lemma attempts_subprocess_run (cmd : Command) (check : bool) :
  P (Run cmd) -> attempts P (subprocess_run cmd check).
Proof.
  intros Hop. apply (attempts_one _ (Run cmd) Hop). intros w. unfold subprocess_run.
  destruct (exec cmd (fs w) (os w)) as [[[rc out err | reason] f'] o'];
    [destruct (check && negb (rc =? 0)%Z) |]; reflexivity.
Qed.

Lemma attempts_mkdir (p : Path) : P (Mkdir p) -> attempts P (mkdir p).
Proof.
  intros Hop. apply (attempts_one _ (Mkdir p) Hop). intros w. unfold mkdir.
  destruct (os_error (OpMkdir p) (fs w) (os w)); [reflexivity |].
  destruct (fs w p) as [[text |] |]; reflexivity.
Qed.

Lemma attempts_rmtree (p : Path) : P (Rmtree p) -> attempts P (rmtree p).
Proof.
  intros Hop. apply (attempts_one _ (Rmtree p) Hop). intros w. unfold rmtree.
  destruct (os_error (OpRmtree p) (fs w) (os w)); reflexivity.
Qed.

Lemma attempts_write_text (p : Path) (text : str) :
  P (WriteFile p text) -> attempts P (write_text p text).
Proof.
  intros Hop. apply (attempts_one _ (WriteFile p text) Hop). intros w.
  unfold write_text.
  destruct (os_error (OpWrite p) (fs w) (os w)); [reflexivity |].
  destruct (fs w p) as [[old |] |]; reflexivity.
Qed.

Lemma attempts_bind {A B} (m : Py A) (k : A -> Py B) :
  attempts P m -> (forall a, attempts P (k a)) -> attempts P (bind m k).
Proof.
  intros Hm Hk w. unfold bind.
  destruct (Hm w) as (ops1 & E1 & H1).
  destruct (m w) as [[a | e] w1]; cbn [snd] in *.
  - destruct (Hk a w1) as (ops2 & E2 & H2).
    exists (ops1 ++ ops2). rewrite E2, E1, app_assoc.
    split; [reflexivity | apply Forall_app; split; assumption].
  - exists ops1. split; assumption.
Qed.

Lemma attempts_try_except {A} (body : Py A) (base : ExnClass) (handler : Exn -> Py A) :
  attempts P body -> (forall e, attempts P (handler e)) ->
  attempts P (try_except body base handler).
Proof.
  intros Hm Hk w. unfold try_except.
  destruct (Hm w) as (ops1 & E1 & H1).
  destruct (body w) as [[a | e] w1]; cbn [snd] in *.
  - exists ops1. split; assumption.
  - destruct (isinstance e base).
    + destruct (Hk e w1) as (ops2 & E2 & H2).
      exists (ops1 ++ ops2). rewrite E2, E1, app_assoc.
      split; [reflexivity | apply Forall_app; split; assumption].
    + exists ops1. split; assumption.
Qed.

End Attempts.

(* ================================================================== *)
(** * flutter_manager.py: the reclone policy *)
(* ================================================================== *)

Lemma reclone_attempts {H : Host} (config : Config) :
  attempts (reclone_operation config) (FlutterManager._reclone_flutter config).
Proof.
  unfold FlutterManager._reclone_flutter, FlutterManager._install_flutter.
  apply attempts_bind; [apply attempts_console_print | intros _].
  apply attempts_try_except; [| intros e; apply attempts_raise].
  apply attempts_bind; [apply attempts_path_exists | intros present].
  apply attempts_bind.
  - destruct present; [apply attempts_rmtree; left; reflexivity | apply attempts_ret].
  - intros _.
    apply attempts_bind; [apply attempts_console_print | intros _].
    apply attempts_try_except; [| intros e; apply attempts_raise].
    apply attempts_bind; [apply attempts_mkdir; right; left; reflexivity | intros _].
    apply attempts_bind;
      [apply attempts_subprocess_run; right; right; reflexivity | intros _].
    apply attempts_console_print.
Qed.

Lemma Run_injective (c d : Command) : Run c = Run d -> c = d.
Proof. intros E. injection E as E. exact E. Qed.

Lemma clone_is_not_doctor {H : Host} (config : Config) :
  FlutterManager.clone_command config <> FlutterManager.doctor_command.
Proof.
  unfold FlutterManager.clone_command, FlutterManager.doctor_command, command.
  intros E. injection E as _ E. vm_compute in E. discriminate E.
Qed.

(** C6 fails on the code under the "reclone" policy.  With [dry_run] off and
    that policy, [ensure_flutter] is [_reclone_flutter] and nothing more:
    whatever the machine does, the only operations attempted are the removal
    of the checkout, the creation of its parent directory and [git clone];
    the shell startup file is neither written nor appended to, and
    [flutter doctor] is not run. *)
Theorem reclone_returns_before_path_and_doctor (H : Host) (config : Config)
    (w : World) :
  dry_run config = false ->
  flutter_update_mode config = u "reclone" ->
  FlutterManager.ensure_flutter config w = FlutterManager._reclone_flutter config w
  /\ exists ops,
       effects (snd (FlutterManager.ensure_flutter config w)) = effects w ++ ops
       /\ Forall (reclone_operation config) ops
       /\ ~ In (Run FlutterManager.doctor_command) ops
       /\ (forall text,
             ~ In (WriteFile FlutterManager.zprofile text) ops
             /\ ~ In (AppendFile FlutterManager.zprofile text) ops).
Proof.
  intros Hdry Hmode.
  assert (E : FlutterManager.ensure_flutter config w
              = FlutterManager._reclone_flutter config w).
  { unfold FlutterManager.ensure_flutter. rewrite Hdry, Hmode, str_eqb_refl.
    reflexivity. }
  split; [exact E |]. rewrite E.
  destruct (reclone_attempts config w) as (ops & Eops & Hops).
  exists ops. split; [exact Eops |]. split; [exact Hops |].
  rewrite Forall_forall in Hops. split; [| intros text; split].
  - intros Hin. destruct (Hops _ Hin) as [E' | [E' | E']];
      [discriminate E' | discriminate E' |].
    apply Run_injective in E'. symmetry in E'. exact (clone_is_not_doctor config E').
  - intros Hin. destruct (Hops _ Hin) as [E' | [E' | E']]; discriminate E'.
  - intros Hin. destruct (Hops _ Hin) as [E' | [E' | E']]; discriminate E'.
Qed.

(** The same machine and configuration under the two policies: after a
    reclone the startup file does not exist and two operations were
    attempted; under "reset" the path-export line is written and the doctor
    runs. *)
Example reclone_against_reset :
  let h := sim_host permissive in
  let w := sim_world h no_files (1, 2)%nat in
  let reclone := sample_config "demo" ["web"%string] "reclone" false in
  let reset := sample_config "demo" ["web"%string] "reset" false in
  let zprofile := FlutterManager.zprofile (H := h) in
  let root := FlutterManager.flutter_root (H := h) in
  fst (FlutterManager.ensure_flutter (H := h) reclone w) = Ok tt
  /\ effects (snd (FlutterManager.ensure_flutter (H := h) reclone w))
     = [Mkdir (parent root); Run (FlutterManager.clone_command (H := h) reclone)]
  /\ fs (snd (FlutterManager.ensure_flutter (H := h) reclone w)) zprofile = None
  /\ fst (FlutterManager.ensure_flutter (H := h) reset w) = Ok tt
  /\ effects (snd (FlutterManager.ensure_flutter (H := h) reset w))
     = [Mkdir (parent root); Run (FlutterManager.clone_command (H := h) reset);
        WriteFile zprofile (FlutterManager.flutter_path (H := h) ++ nl);
        Run (FlutterManager.doctor_command (H := h))]
  /\ fs (snd (FlutterManager.ensure_flutter (H := h) reset w)) zprofile
     = Some (File (FlutterManager.flutter_path (H := h) ++ nl)).
Proof. vm_compute. repeat split. Qed.

Lemma reclone_returns_before_path_and_doctor_witness :
  let h := sim_host permissive in
  let w := sim_world h no_files (1, 2)%nat in
  let config := sample_config "demo" ["web"%string] "reclone" false in
  FlutterManager.ensure_flutter (H := h) config w
  = FlutterManager._reclone_flutter (H := h) config w
  /\ exists ops,
       effects (snd (FlutterManager.ensure_flutter (H := h) config w))
       = effects w ++ ops
       /\ Forall (reclone_operation (H := h) config) ops
       /\ ~ In (Run (FlutterManager.doctor_command (H := h))) ops
       /\ (forall text,
             ~ In (WriteFile (FlutterManager.zprofile (H := h)) text) ops
             /\ ~ In (AppendFile (FlutterManager.zprofile (H := h)) text) ops).
Proof.
  intros h w config.
  apply (reclone_returns_before_path_and_doctor h config w); reflexivity.
Defined.

(* ================================================================== *)
(** * bootstrap.py: what a failing step does to the run *)
(* ================================================================== *)

Section StepFacts.
Context {H : Host}.

Lemma bind_unit_ret (m : Py unit) (w : World) : bind m (fun _ => ret tt) w = m w.
Proof. unfold bind, ret. destruct (m w) as [[[] | e] w']; reflexivity. Qed.

Lemma bind_ext {A B} (m : Py A) (k k' : A -> Py B) (w : World) :
  (forall a v, k a v = k' a v) -> bind m k w = bind m k' w.
Proof.
  intros Hk. unfold bind. destruct (m w) as [[a | e] w']; [apply Hk | reflexivity].
Qed.

(** A handler for [Exception] that only prints makes the block total: it
    returns whatever the body does. *)
Lemma guarded_returns (body : Py unit) (warning : Exn -> str) (w : World) :
  exists w',
    try_except body Exception (fun e => console_print (warning e)) w = (Ok tt, w').
Proof.
  unfold try_except. destruct (body w) as [[[] | e] w1].
  - exists w1. reflexivity.
  - assert (Ei : isinstance e Exception = true).
    { unfold isinstance. destruct (exn_class e); reflexivity. }
    rewrite Ei. eexists. reflexivity.
Qed.

Lemma for_each_aborts (done rest : list (Py unit)) (s : Py unit) (w w1 w2 : World)
    (e : Exn) :
  runs_ok done w w1 ->
  s w1 = (Raise e, w2) ->
  for_each (done ++ s :: rest) (fun step => step) w = (Raise e, w2).
Proof.
  revert w. induction done as [| d done IH]; intros w Hdone Hs.
  - cbn [runs_ok] in Hdone. subst w1. cbn [app for_each]. unfold bind.
    rewrite Hs. reflexivity.
  - cbn [runs_ok] in Hdone. destruct Hdone as (v & Hd & Hdone).
    cbn [app for_each]. unfold bind at 1. rewrite Hd. apply (IH v Hdone Hs).
Qed.


End StepFacts.





(* ================================================================== *)
(** * flutter_manager.py: the other policies *)
(* ================================================================== *)

Lemma startswith_refl (s : str) : startswith s s = true.
Proof. induction s as [| c s IH]; simpl; [| rewrite N.eqb_refl, IH]; reflexivity. Qed.

Lemma contains_refl (s : str) : contains s s = true.
Proof.
  destruct s as [| c s]; [reflexivity |]. cbn [contains].
  rewrite startswith_refl. reflexivity.
Qed.

Lemma line_appended (line content : str) :
  contains line (content ++ nl ++ line ++ nl) = true.
Proof.
  apply contains_app_r. apply contains_app_r. apply contains_app_l.
  apply contains_refl.
Qed.

Lemma line_written (line : str) : contains line (line ++ nl) = true.
Proof. apply contains_app_l. apply contains_refl. Qed.

Section OtherPolicies.
Context {H : Host}.
Variable config : Config.

Local Abbreviation zprofile := (FlutterManager.zprofile (H := H)).
Local Abbreviation flutter_path := (FlutterManager.flutter_path (H := H)).

(** When [_ensure_flutter_path] returns, the startup file holds the
    path-export line; and a file that held it already is not written. *)
Lemma ensure_flutter_path_exports (w w' : World) :
  FlutterManager._ensure_flutter_path w = (Ok tt, w') ->
  (exists content,
     fs w' zprofile = Some (File content) /\ contains flutter_path content = true)
  /\ (forall content,
        fs w zprofile = Some (File content) ->
        contains flutter_path content = true ->
        fs w' = fs w /\ effects w' = effects w).
Proof.
  unfold FlutterManager._ensure_flutter_path.
  unfold bind at 1. unfold console_print at 1. cbv beta iota.
  unfold bind at 1. unfold path_exists at 1. cbv beta iota. cbn [fs show].
  destruct (fs w zprofile) as [node |] eqn:E.
  - unfold bind at 1. unfold bind at 1. unfold read_text at 1. cbn [fs os show].
    rewrite E.
    destruct (os_error (OpRead zprofile) (fs w) (os w)); [discriminate |].
    destruct node as [content |]; [| discriminate].
    destruct (contains flutter_path content) eqn:Hc; cbn [negb].
    + unfold console_print, sys_path_ensure. cbn [sys_path show].
      match goal with |- context [str_in ?x ?l] => destruct (str_in x l) end;
        intros Ew; injection Ew as <-; cbn [fs effects show];
        (split; [exists content; split; assumption | intros; split; reflexivity]).
    + unfold bind at 1. unfold append_text at 1. cbn [fs os show]. rewrite E.
      destruct (os_error (OpAppend zprofile) (fs w) (os w)); [discriminate |].
      unfold console_print, sys_path_ensure. cbn [sys_path show set_fs record].
      match goal with |- context [str_in ?x ?l] => destruct (str_in x l) end;
        intros Ew; injection Ew as <-; cbn [fs effects show set_fs record];
        (split;
         [ exists (content ++ nl ++ flutter_path ++ nl);
           split; [apply update_same | exact (line_appended flutter_path content)]
         | intros c' Ec' Hc'; congruence ]).
  - unfold bind at 1. unfold bind at 1. unfold write_text at 1. cbn [fs os show].
    rewrite E.
    destruct (os_error (OpWrite zprofile) (fs w) (os w)); [discriminate |].
    unfold console_print, sys_path_ensure. cbn [sys_path show set_fs record].
    match goal with |- context [str_in ?x ?l] => destruct (str_in x l) end;
      intros Ew; injection Ew as <-; cbn [fs effects show set_fs record];
      (split;
       [ exists (flutter_path ++ nl);
         split; [apply update_same | exact (line_written flutter_path)]
       | intros c' Ec' Hc'; discriminate ]).
Qed.

(** [_run_flutter_doctor] always returns: an exit status other than 0 and a
    doctor that cannot be started are printed, not raised. *)
Lemma run_flutter_doctor_returns (w : World) :
  exists w', FlutterManager._run_flutter_doctor config w = (Ok tt, w').
Proof.
  unfold FlutterManager._run_flutter_doctor.
  unfold bind at 1. unfold console_print at 1. cbv beta iota.
  apply guarded_returns.
Qed.

(** Under "reset" and "skip" the path and the doctor follow the checkout. *)
Lemma ensure_flutter_unless_reclone (w : World) :
  dry_run config = false ->
  str_eqb (flutter_update_mode config) (u "reclone") = false ->
  FlutterManager.ensure_flutter config w
  = ((if negb (match fs w FlutterManager.flutter_root with
               | Some _ => true | None => false end)
         || negb (match fs w (FlutterManager.flutter_root // u ".git") with
                  | Some _ => true | None => false end)
      then FlutterManager._install_flutter config
      else FlutterManager._update_flutter config) ;;
     FlutterManager._ensure_flutter_path ;;
     FlutterManager._run_flutter_doctor config) w.
Proof.
  intros Hdry Hmode. unfold FlutterManager.ensure_flutter. rewrite Hdry, Hmode.
  reflexivity.
Qed.

(** The update when the fast-forward is refused: the four git commands
    before the reconciliation run, and what [_update_flutter] does from
    there is [_handle_diverged_branches]. *)
Lemma update_flutter_diverged (w : World)
    {rc0 out0 err0 f0 o0 out1 err1 f1 o1 out2 err2 f2 o2 rc out3 err3 f3 o3} :
  exec (FlutterManager.set_url_command) (fs w) (os w)
    = (Exited rc0 out0 err0, f0, o0) ->
  exec (FlutterManager.fetch_command) f0 o0 = (Exited 0 out1 err1, f1, o1) ->
  exec (FlutterManager.checkout_command config) f1 o1
    = (Exited 0 out2 err2, f2, o2) ->
  exec (FlutterManager.merge_command config) f2 o2 = (Exited rc out3 err3, f3, o3) ->
  rc <> 0%Z ->
  exists w3,
    fs w3 = f3 /\ os w3 = o3
    /\ FlutterManager._update_flutter config w
       = try_except (FlutterManager._handle_diverged_branches config)
           CalledProcessError
           (fun e =>
              raise FlutterInstallationError
                (u "Failed to update Flutter: " ++ exn_str e))
           w3.
Proof.
  intros E0 E1 E2 E3 Hrc.
  assert (Hnz : negb (rc =? 0)%Z = true).
  { apply negb_true_iff. apply Z.eqb_neq. exact Hrc. }
  unfold FlutterManager._update_flutter.
  unfold bind at 1. unfold console_print at 1. cbv beta iota.
  unfold try_except at 1.
  unfold bind at 1.
  match goal with
  | |- context [subprocess_run ?c ?k ?v] =>
      rewrite (subprocess_run_exited c k v E0)
  end.
  cbn [andb]. unfold bind at 1.
  match goal with
  | |- context [subprocess_run FlutterManager.fetch_command ?k ?v] =>
      rewrite (subprocess_run_exited FlutterManager.fetch_command k v E1)
  end.
  cbn [andb negb Z.eqb]. unfold bind at 1. unfold try_except at 1. unfold bind at 1.
  match goal with
  | |- context [subprocess_run (FlutterManager.checkout_command config) ?k ?v] =>
      rewrite (subprocess_run_exited (FlutterManager.checkout_command config) k v E2)
  end.
  cbn [andb negb Z.eqb]. unfold ret at 1. unfold bind at 1.
  unfold try_except at 1. unfold bind at 1.
  match goal with
  | |- context [subprocess_run (FlutterManager.merge_command config) ?k ?v] =>
      rewrite (subprocess_run_exited (FlutterManager.merge_command config) k v E3)
  end.
  cbn [andb]. rewrite Hnz.
  cbn [isinstance exn_class issubclass ExnClass_eqb orb]. unfold ret at 1.
  eexists. split; [| split; [| reflexivity]]; reflexivity.
Qed.

(** Under "skip" a refused fast-forward ends the update normally, on the
    machine the refused merge left. *)
Lemma update_flutter_skip_diverged (w : World)
    rc0 out0 err0 f0 o0 out1 err1 f1 o1 out2 err2 f2 o2 rc out3 err3 f3 o3 :
  flutter_update_mode config = u "skip" ->
  exec (FlutterManager.set_url_command) (fs w) (os w)
    = (Exited rc0 out0 err0, f0, o0) ->
  exec (FlutterManager.fetch_command) f0 o0 = (Exited 0 out1 err1, f1, o1) ->
  exec (FlutterManager.checkout_command config) f1 o1
    = (Exited 0 out2 err2, f2, o2) ->
  exec (FlutterManager.merge_command config) f2 o2 = (Exited rc out3 err3, f3, o3) ->
  rc <> 0%Z ->
  exists w',
    FlutterManager._update_flutter config w = (Ok tt, w')
    /\ fs w' = f3 /\ os w' = o3.
Proof.
  intros Hmode E0 E1 E2 E3 Hrc.
  destruct (update_flutter_diverged w E0 E1 E2 E3 Hrc) as (w3 & Hf & Ho & ->).
  unfold try_except, FlutterManager._handle_diverged_branches.
  rewrite Hmode, str_eqb_refl. unfold console_print.
  eexists. split; [reflexivity |]. split; assumption.
Qed.

End OtherPolicies.

(* ================================================================== *)
(** * config.py: further properties *)
(* ================================================================== *)

Lemma str_in_iff (x : str) (xs : list str) : str_in x xs = true <-> In x xs.
Proof.
  unfold str_in. rewrite existsb_exists. split.
  - intros [y [Hy E]]. apply str_eqb_eq in E. subst. exact Hy.
  - intros Hx. exists x. split; [exact Hx | apply str_eqb_refl].
Qed.

Lemma str_in_false (x : str) (xs : list str) : str_in x xs = false <-> ~ In x xs.
Proof.
  rewrite <- str_in_iff. destruct (str_in x xs); split; intros E;
    try discriminate; try reflexivity; try (intros E'; discriminate E').
  exfalso. apply E. reflexivity.
Qed.

Lemma str_eqb_false (a b : str) : str_eqb a b = false <-> a <> b.
Proof.
  rewrite <- str_eqb_eq. destruct (str_eqb a b); split; intros E;
    try discriminate; try reflexivity; try (intros E'; discriminate E').
  exfalso. apply E. reflexivity.
Qed.

Lemma validate_platforms_ok (U : Unicode) (ps : list str) :
  validate_platforms ps = Ok tt <-> Forall (fun p => In (lower p) valid_platforms) ps.
Proof.
  induction ps as [| p ps IH]; cbn [validate_platforms].
  - split; [constructor | reflexivity].
  - destruct (str_in (lower p) valid_platforms) eqn:Ep; cbn [negb].
    + rewrite IH. apply str_in_iff in Ep. split.
      * intros Hps. constructor; assumption.
      * intros Hps. apply Forall_inv_tail in Hps. exact Hps.
    + apply str_in_false in Ep. split; [discriminate |].
      intros Hps. apply Forall_inv in Hps. contradiction.
Qed.

Lemma validate_iff_valid (U : Unicode) (c : Config) :
  _validate c = Ok tt <-> valid_config c.
Proof.
  unfold _validate, valid_config.
  destruct (project_name c) as [| n0 name] eqn:En; cbn [truthy negb].
  { split; [discriminate | intros [Hn _]; contradiction]. }
  destruct (platforms c) as [| p0 ps] eqn:Eps; cbn [truthy negb].
  { split; [discriminate | intros (_ & Hp & _); contradiction]. }
  pose proof (validate_platforms_ok U (p0 :: ps)) as Hps.
  destruct (validate_platforms (p0 :: ps)) as [[] | e].
  - assert (Hall : Forall (fun p => In (lower p) valid_platforms) (p0 :: ps))
      by (apply Hps; reflexivity).
    destruct (str_eqb (template c) (u "plugin")) eqn:Et.
    + apply str_eqb_eq in Et.
      destruct (str_in (ios_language c) [u "swift"; u "objc"]) eqn:Ei; cbn [negb].
      * destruct (str_in (android_language c) [u "kotlin"; u "java"]) eqn:Ea;
          cbn [negb].
        -- apply str_in_iff in Ei. apply str_in_iff in Ea.
           split; [intros _ | reflexivity].
           repeat split; try discriminate; assumption.
        -- apply str_in_false in Ea. split; [discriminate |].
           intros (_ & _ & _ & Hl). destruct (Hl Et) as [_ Ha]. contradiction.
      * apply str_in_false in Ei. split; [discriminate |].
        intros (_ & _ & _ & Hl). destruct (Hl Et) as [Hi _]. contradiction.
    + apply str_eqb_false in Et. split; [intros _ | reflexivity].
      repeat split; try discriminate; try assumption; contradiction.
  - split; [discriminate |]. intros (_ & _ & Hall & _).
    apply Hps in Hall. discriminate Hall.
Qed.

(** X1: [Config._validate] accepts exactly the configurations with a
    project name, at least one platform, platforms that are in the
    enumeration once lowered and, for the "plugin" template only, languages
    in their enumerations; and a construction that succeeds returns the
    fields it was given. *)
Theorem validate_accepts_exactly (U : Unicode) (c : Config) :
  (_validate c = Ok tt <-> valid_config c)
  /\ (forall c',
        Config_init (project_name c) (platforms c) (org c) (channel c) (output_dir c)
          (template c) (ios_language c) (android_language c) (flutter_update_mode c)
          (dry_run c) (verbose c) = Ok c' ->
        c' = c /\ valid_config c).
Proof.
  split; [apply validate_iff_valid |].
  intros c'. unfold Config_init.
  replace (mkConfig (project_name c) (platforms c) (org c) (channel c) (output_dir c)
             (template c) (ios_language c) (android_language c)
             (flutter_update_mode c) (dry_run c) (verbose c))
    with c by (destruct c; reflexivity).
  destruct (_validate c) as [[] | e] eqn:E; [| discriminate].
  intros E'. injection E' as <-.
  split; [reflexivity | apply validate_iff_valid; exact E].
Qed.

(** X2: with a project name and an empty platform list, construction fails
    with "At least one platform must be specified", whatever the other
    fields are. *)
Theorem empty_platforms_raise (U : Unicode) (name organization branch : str)
    (dir : Path) (kind ios android mode : str) (dry loud : bool) :
  name <> [] ->
  Config_init name [] organization branch dir kind ios android mode dry loud
  = Raise (mkExn ValueError (u "At least one platform must be specified")).
Proof.
  intros Hname. destruct name as [| n0 name]; [contradiction | reflexivity].
Qed.

Lemma empty_platforms_raise_witness :
  @Config_init ascii_only (u "TestApp") [] (u "com.test") (u "stable")
    (PosixPath (u ".")) (u "plugin") (u "cobol") (u "kotlin") (u "reset") false false
  = Raise (mkExn ValueError (u "At least one platform must be specified")).
Proof.
  apply (empty_platforms_raise ascii_only). discriminate.
Defined.

(** X3: the languages are checked for the "plugin" template after the
    platforms, the iOS one first: a configuration that is valid up to its
    languages fails with "Invalid iOS language: " and the language given when
    that one is neither "swift" nor "objc", and with "Invalid Android
    language: " when the iOS one is fine and the Android one is neither
    "kotlin" nor "java"; with any other template the languages are not
    looked at. *)
Theorem plugin_languages_checked (U : Unicode) (c : Config) :
  project_name c <> [] ->
  platforms c <> [] ->
  Forall (fun p => In (lower p) valid_platforms) (platforms c) ->
  (template c = u "plugin" ->
   ~ In (ios_language c) [u "swift"; u "objc"] ->
   _validate c
   = Raise (mkExn ValueError (u "Invalid iOS language: " ++ ios_language c)))
  /\ (template c = u "plugin" ->
      In (ios_language c) [u "swift"; u "objc"] ->
      ~ In (android_language c) [u "kotlin"; u "java"] ->
      _validate c
      = Raise (mkExn ValueError (u "Invalid Android language: " ++ android_language c)))
  /\ (template c <> u "plugin" -> _validate c = Ok tt).
Proof.
  intros Hname Hps Hall. unfold _validate.
  destruct (project_name c) as [| n0 name]; [contradiction |].
  destruct (platforms c) as [| p0 ps] eqn:Eps; [contradiction |].
  cbn [truthy negb].
  apply (validate_platforms_ok U) in Hall. rewrite Hall.
  split; [| split].
  - intros Et Hi. rewrite Et, str_eqb_refl.
    apply str_in_false in Hi. rewrite Hi. reflexivity.
  - intros Et Hi Ha. rewrite Et, str_eqb_refl.
    apply str_in_iff in Hi. apply str_in_false in Ha. rewrite Hi, Ha. reflexivity.
  - intros Et. apply str_eqb_false in Et. rewrite Et. reflexivity.
Qed.

Lemma plugin_languages_checked_witness :
  let c := mkConfig (u "TestApp") [u "ios"] (u "com.test") (u "stable")
             (PosixPath (u ".")) (u "plugin") (u "cobol") (u "pascal") (u "reset")
             false false in
  @_validate ascii_only c
  = Raise (mkExn ValueError (u "Invalid iOS language: cobol")).
Proof.
  intros c.
  refine (proj1 (plugin_languages_checked ascii_only c _ _ _) eq_refl _).
  - discriminate.
  - discriminate.
  - repeat constructor.
  - vm_compute. intros [E | [E | []]]; discriminate E.
Defined.

(** ** [platforms_csv] *)

Lemma split_char_no_sep (sep : N) (s : str) : ~ In sep s -> split_char sep s = [s].
Proof.
  induction s as [| c s IH]; intros Hs; [reflexivity |].
  cbn [split_char].
  destruct (N.eqb_spec c sep) as [-> | _].
  - exfalso. apply Hs. left. reflexivity.
  - rewrite IH; [reflexivity |]. intros Hin. apply Hs. right. exact Hin.
Qed.

Lemma split_char_app_sep (sep : N) (s t : str) :
  ~ In sep s -> split_char sep (s ++ sep :: t) = s :: split_char sep t.
Proof.
  induction s as [| c s IH]; intros Hs.
  - cbn [app split_char]. rewrite N.eqb_refl. reflexivity.
  - cbn [app split_char].
    destruct (N.eqb_spec c sep) as [-> | _].
    + exfalso. apply Hs. left. reflexivity.
    + rewrite IH; [reflexivity |]. intros Hin. apply Hs. right. exact Hin.
Qed.

(** Splitting what was joined gives the parts back, when no part holds the
    separator. *)
Lemma split_join (sep : N) (parts : list str) :
  parts <> [] ->
  Forall (fun part => ~ In sep part) parts ->
  split_char sep (join [sep] parts) = parts.
Proof.
  intros Hne Hall. induction Hall as [| l rest Hl Hrest IH]; [contradiction |].
  destruct rest as [| l2 rest].
  - apply split_char_no_sep. exact Hl.
  - change (join [sep] (l :: l2 :: rest)) with (l ++ sep :: join [sep] (l2 :: rest)).
    rewrite (split_char_app_sep sep l _ Hl), IH; [reflexivity | discriminate].
Qed.

(** Lowering keeps an ASCII code point that is not a capital letter. *)
Lemma lower_from_keeps (U : Unicode) (c : N) (before s : str) :
  (c <? 128) = true -> is_upper_AZ c = false -> In c s -> In c (lower_from before s).
Proof.
  intros Hascii Hup. revert before.
  induction s as [| d s IH]; intros before Hin; [contradiction |].
  cbn [lower_from]. apply in_or_app. destruct Hin as [-> | Hin].
  - left. unfold lower_char. rewrite Hascii, Hup. left. reflexivity.
  - right. apply IH. exact Hin.
Qed.

Lemma valid_platform_no_comma (U : Unicode) (p : str) :
  In (lower p) valid_platforms -> ~ In 44 p.
Proof.
  intros Hvalid Hcomma.
  apply (lower_from_keeps U 44 [] p eq_refl eq_refl) in Hcomma.
  fold (lower p) in Hcomma.
  unfold valid_platforms in Hvalid.
  repeat (destruct Hvalid as [E | Hvalid];
          [ rewrite <- E in Hcomma; vm_compute in Hcomma;
            repeat (destruct Hcomma as [Hc | Hcomma]; [discriminate Hc |]);
            exact Hcomma
          | ]).
  exact Hvalid.
Qed.

(** X4: for a configuration that passed validation, splitting
    [platforms_csv] at the commas gives the platform list back. *)
Theorem platforms_csv_round_trip (U : Unicode) (c : Config) :
  _validate c = Ok tt ->
  split_char 44 (platforms_csv c) = platforms c.
Proof.
  intros Hv. apply validate_iff_valid in Hv.
  destruct Hv as (_ & Hne & Hall & _).
  unfold platforms_csv. change (u ",") with [44].
  apply split_join; [exact Hne |].
  apply Forall_impl with (2 := Hall). intros p. apply valid_platform_no_comma.
Qed.

Lemma platforms_csv_round_trip_witness :
  let c := sample_config "demo" ["ios"%string; "Android"%string; "web"%string]
             "reset" false in
  split_char 44 (platforms_csv c) = platforms c.
Proof.
  intros c. apply (platforms_csv_round_trip ascii_only c). vm_compute. reflexivity.
Defined.

Example platforms_csv_test :
  platforms_csv (sample_config "TestApp" ["ios"%string; "android"%string; "web"%string]
                   "reset" false)
  = u "ios,android,web".
Proof. vm_compute. reflexivity. Qed.

(** ** [_sanitize_package_name] *)

Lemma ascii_symbol_spec (c : N) :
  ascii_symbol c = true ->
  (c <? 128) = true /\ is_upper_AZ c = false
  /\ (if word_char c then c else underscore) = underscore.
Proof.
  unfold ascii_symbol. intros Hc. apply andb_true_iff in Hc. destruct Hc as [Ha Hn].
  apply negb_true_iff in Hn. apply orb_false_iff in Hn. destruct Hn as [Hn Hd].
  apply orb_false_iff in Hn. destruct Hn as [Hu Hl].
  repeat split; try assumption.
  unfold word_char. rewrite Hl, Hd. cbn [orb].
  destruct (N.eqb_spec c underscore) as [-> | _]; reflexivity.
Qed.

Lemma rstrip_repeat (c : N) (n : nat) : rstrip [c] (repeat c n) = [].
Proof.
  induction n as [| n IH]; [reflexivity |].
  cbn [repeat rstrip]. rewrite IH. unfold in_chars. cbn [existsb].
  rewrite N.eqb_refl. reflexivity.
Qed.

Section SanitizeMore.
Context {U : Unicode}.

Lemma lower_from_symbols (before s : str) :
  forallb ascii_symbol s = true -> lower_from before s = s.
Proof.
  revert before. induction s as [| c s IH]; intros before Hs; [reflexivity |].
  cbn [forallb] in Hs. apply andb_true_iff in Hs. destruct Hs as [Hc Hs].
  destruct (ascii_symbol_spec c Hc) as (Ha & Hu & _).
  cbn [lower_from]. unfold lower_char. rewrite Ha, Hu, (IH _ Hs). reflexivity.
Qed.

Lemma re_sub_symbols (s : str) :
  forallb ascii_symbol s = true ->
  re_sub_non_word s = repeat underscore (List.length s).
Proof.
  induction s as [| c s IH]; intros Hs; [reflexivity |].
  cbn [forallb] in Hs. apply andb_true_iff in Hs. destruct Hs as [Hc Hs].
  destruct (ascii_symbol_spec c Hc) as (_ & _ & Hw).
  cbn [re_sub_non_word map List.length repeat]. rewrite Hw.
  fold (re_sub_non_word s). rewrite (IH Hs). reflexivity.
Qed.

End SanitizeMore.

(** X5: a project name made of ASCII code points that are neither letters nor
    digits (the empty name included) gives the package name "app". *)
Theorem symbols_fall_back_to_app (U : Unicode) (name : str) :
  forallb ascii_symbol name = true ->
  _sanitize_package_name name = u "app".
Proof.
  intros Hs. unfold _sanitize_package_name, lower.
  rewrite (lower_from_symbols [] name Hs), (re_sub_symbols name Hs).
  destruct (List.length name) as [| n]; [reflexivity |].
  cbn [repeat].
  change (isalpha underscore) with false. cbn [negb].
  change (u "app_" ++ underscore :: repeat underscore n)
    with (97 :: 112 :: 112 :: underscore :: underscore :: repeat underscore n).
  rewrite (strip_letter_first 97 _ eq_refl).
  rewrite (rstrip_cons [underscore] 112 _ eq_refl).
  rewrite (rstrip_cons [underscore] 112 _ eq_refl).
  change (underscore :: underscore :: repeat underscore n)
    with (repeat underscore (S (S n))).
  rewrite rstrip_repeat. reflexivity.
Qed.

Lemma symbols_fall_back_to_app_witness :
  @_sanitize_package_name ascii_only (u "--- !? ___") = u "app".
Proof.
  apply (symbols_fall_back_to_app ascii_only). vm_compute. reflexivity.
Defined.

(** X6: the names the sanitizer returns unchanged are exactly those that
    match [[a-z][a-z0-9_]*] and do not end with an underscore. *)
Theorem sanitizer_fixed_points (U : Unicode) (name : str) :
  _sanitize_package_name name = name
  <-> (package_identifier name = true /\ rstrip [underscore] name = name).
Proof.
  split.
  - intros E. rewrite <- E. apply sanitize_canonical.
  - intros Hc. apply sanitize_fixed. exact Hc.
Qed.

(* ================================================================== *)
(** * What each stage may touch *)
(* ================================================================== *)

Section MoreAttempts.
Context {H : Host}.
Variable P : Effect -> Prop.

Lemma attempts_console_print_panel (text title style : str) :
  attempts P (console_print_panel text title style).
Proof. apply attempts_nothing. reflexivity. Qed.

Lemma attempts_progress_add_task (d : str) : attempts P (progress_add_task d).
Proof. apply attempts_nothing. reflexivity. Qed.

Lemma attempts_progress_update (d : str) : attempts P (progress_update d).
Proof. apply attempts_nothing. reflexivity. Qed.

Lemma attempts_append_text (p : Path) (text : str) :
  P (AppendFile p text) -> attempts P (append_text p text).
Proof.
  intros Hop. apply (attempts_one _ _ (AppendFile p text) Hop). intros w.
  unfold append_text.
  destruct (os_error (OpAppend p) (fs w) (os w)); [reflexivity |].
  destruct (fs w p) as [[old |] |]; reflexivity.
Qed.

Lemma attempts_for_each {A} (xs : list A) (body : A -> Py unit) :
  (forall x, attempts P (body x)) -> attempts P (for_each xs body).
Proof.
  intros Hbody. induction xs as [| x xs IH]; cbn [for_each].
  - apply attempts_ret.
  - apply attempts_bind; [apply Hbody | intros _; exact IH].
Qed.

Lemma attempts_try_except_2 {A} (body : Py A) (c1 c2 : ExnClass)
    (h1 h2 : Exn -> Py A) :
  attempts P body -> (forall e, attempts P (h1 e)) -> (forall e, attempts P (h2 e)) ->
  attempts P (try_except_2 body c1 h1 c2 h2).
Proof.
  intros Hm H1 H2 w. unfold try_except_2.
  destruct (Hm w) as (ops1 & E1 & F1).
  destruct (body w) as [[a | e] w1]; cbn [snd] in *.
  - exists ops1. split; assumption.
  - destruct (isinstance e c1).
    + destruct (H1 e w1) as (ops2 & E2 & F2).
      exists (ops1 ++ ops2). rewrite E2, E1, app_assoc.
      split; [reflexivity | apply Forall_app; split; assumption].
    + destruct (isinstance e c2).
      * destruct (H2 e w1) as (ops2 & E2 & F2).
        exists (ops1 ++ ops2). rewrite E2, E1, app_assoc.
        split; [reflexivity | apply Forall_app; split; assumption].
      * exists ops1. split; assumption.
Qed.

End MoreAttempts.

Lemma attempts_weaken {H : Host} {A} (P Q : Effect -> Prop) (m : Py A) :
  (forall op, P op -> Q op) -> attempts P m -> attempts Q m.
Proof.
  intros HPQ Hm w. destruct (Hm w) as (ops & E & F).
  exists ops. split; [exact E |]. apply Forall_impl with (2 := F). exact HPQ.
Qed.

(** One step of a footprint proof; what is left are the obligations on the
    operations themselves. *)
Ltac attempts_step :=
  cbv beta;
  lazymatch goal with
  | |- attempts _ (bind _ _) => apply attempts_bind; [| intro]
  | |- attempts _ (try_except _ _ _) => apply attempts_try_except; [| intro]
  | |- attempts _ (try_except_2 _ _ _ _ _) =>
      apply attempts_try_except_2; [| intro | intro]
  | |- attempts _ (for_each _ _) => apply attempts_for_each; intro
  | |- attempts _ (ret _) => apply attempts_ret
  | |- attempts _ (raise _ _) => apply attempts_raise
  | |- attempts _ (reraise _) => apply attempts_reraise
  | |- attempts _ (console_print _) => apply attempts_console_print
  | |- attempts _ (console_print_panel _ _ _) => apply attempts_console_print_panel
  | |- attempts _ (progress_add_task _) => apply attempts_progress_add_task
  | |- attempts _ (progress_update _) => apply attempts_progress_update
  | |- attempts _ (path_exists _) => apply attempts_path_exists
  | |- attempts _ (read_text _) => apply attempts_read_text
  | |- attempts _ (sys_path_ensure _) => apply attempts_sys_path_ensure
  | |- attempts _ (subprocess_run _ _) => apply attempts_subprocess_run
  | |- attempts _ (mkdir _) => apply attempts_mkdir
  | |- attempts _ (rmtree _) => apply attempts_rmtree
  | |- attempts _ (write_text _ _) => apply attempts_write_text
  | |- attempts _ (append_text _ _) => apply attempts_append_text
  | |- attempts _ (if ?b then _ else _) => destruct b
  | |- attempts _ (match ?x with _ => _ end) => destruct x
  | |- attempts _ (let _ := _ in _) => cbv zeta
  end.

Ltac attempts_all := repeat attempts_step.

Section Footprints.
Context {U : Unicode} {H : Host}.
Variable config : Config.

Lemma prerequisites_attempts :
  attempts is_run (PrerequisitesManager.check_and_install config).
Proof.
  unfold PrerequisitesManager.check_and_install,
    PrerequisitesManager._check_xcode_tools, PrerequisitesManager._check_homebrew,
    PrerequisitesManager._install_homebrew, PrerequisitesManager._ensure_homebrew_path,
    PrerequisitesManager._install_packages, PrerequisitesManager._setup_platform_tools,
    PrerequisitesManager._setup_android_tools, PrerequisitesManager._setup_ios_tools.
  attempts_all; eexists; reflexivity.
Qed.

Lemma sdk_attempts :
  attempts (sdk_operation config) (FlutterManager.ensure_flutter config).
Proof.
  unfold FlutterManager.ensure_flutter, FlutterManager._reclone_flutter,
    FlutterManager._install_flutter, FlutterManager._update_flutter,
    FlutterManager._handle_diverged_branches, FlutterManager._ensure_flutter_path,
    FlutterManager._run_flutter_doctor, FlutterManager._handle_android_licenses.
  attempts_all; cbn [sdk_operation];
    try reflexivity;
    try (left; split; [reflexivity | first [left; reflexivity | right; reflexivity]]);
    try (right; reflexivity).
Qed.

Lemma creator_attempts :
  attempts (creator_operation config) (ProjectCreator.create_project config).
Proof.
  unfold ProjectCreator.create_project.
  attempts_all; first [left; reflexivity | right; reflexivity].
Qed.

Lemma bootstrap_attempts :
  attempts (bootstrap_operation config) (ProjectBootstrap.bootstrap_project config).
Proof.
  unfold ProjectBootstrap.bootstrap_project, ProjectBootstrap._create_vscode_config,
    ProjectBootstrap._create_makefile, ProjectBootstrap._create_test_structure,
    ProjectBootstrap._create_sample_tests, ProjectBootstrap._create_analysis_options,
    ProjectBootstrap._create_github_actions, ProjectBootstrap._add_dependencies,
    ProjectBootstrap._create_environment_support, ProjectBootstrap._modify_main_dart,
    ProjectBootstrap._create_readme, ProjectBootstrap._format_code,
    ProjectBootstrap.main_dart.
  attempts_all; cbn [bootstrap_operation];
    try reflexivity; repeat first [apply inside_root | apply inside_join].
Qed.

End Footprints.

Lemma run_attempts (U : Unicode) (H : Host) (config : Config) :
  attempts (run_operation config) (FlutterSetup.run config).
Proof.
  unfold FlutterSetup.run, FlutterSetup._run_prerequisites,
    FlutterSetup._run_flutter_installation, FlutterSetup._run_project_creation,
    FlutterSetup._run_bootstrap, FlutterSetup._show_next_steps.
  attempts_all.
  - apply (attempts_weaken is_run); [| apply prerequisites_attempts].
    intros op [c ->]. exact I.
  - unfold FlutterManager.ensure_flutter.
    destruct (dry_run config); [attempts_all |].
    destruct (str_eqb (flutter_update_mode config) (u "reclone")) eqn:Emode.
    + apply str_eqb_eq in Emode.
      unfold FlutterManager._reclone_flutter, FlutterManager._install_flutter.
      attempts_all; cbn [run_operation]; auto.
    + apply (attempts_weaken
               (fun op => sdk_operation config op /\ forall p, op <> Rmtree p)).
      * intros [c | p | p t | p t | p] [Hop Hrm]; cbn [run_operation sdk_operation] in *;
          auto.
        exfalso. apply (Hrm p). reflexivity.
      * unfold FlutterManager._install_flutter, FlutterManager._update_flutter,
          FlutterManager._handle_diverged_branches, FlutterManager._ensure_flutter_path,
          FlutterManager._run_flutter_doctor, FlutterManager._handle_android_licenses.
        attempts_all; (split; [| intros p; discriminate]); cbn [sdk_operation];
          try reflexivity;
          try (left; split; [reflexivity | first [left; reflexivity | right; reflexivity]]);
          try (right; reflexivity).
  - apply (attempts_weaken (creator_operation config)); [| apply creator_attempts].
    intros op [-> | ->]; cbn [run_operation]; auto.
  - apply (attempts_weaken (bootstrap_operation config)); [| apply bootstrap_attempts].
    intros [c | p | p t | p t | p] Hop; cbn [run_operation bootstrap_operation] in *;
      auto; contradiction.
Qed.

(** X7: the prerequisites stage attempts nothing but starting programs: it
    creates, writes and removes no file or directory itself. *)
Theorem prerequisites_only_run_programs (H : Host) (config : Config) :
  attempts is_run (PrerequisitesManager.check_and_install config).
Proof. apply prerequisites_attempts. Qed.

(** X8: whatever the machine answers, the SDK manager only runs git (in the
    SDK checkout or without a working directory) and the doctor, creates only
    the parent of the checkout, removes only the checkout, and writes only
    the shell startup file. *)
Theorem sdk_manager_footprint (H : Host) (config : Config) :
  attempts (sdk_operation config) (FlutterManager.ensure_flutter config).
Proof. apply sdk_attempts. Qed.

(** X9: whatever the machine answers, the bootstrapper creates directories
    and writes files only at paths reached from the project directory, runs
    programs only with the project directory as working directory, and
    appends to or removes nothing. *)
Theorem bootstrap_stays_in_project (U : Unicode) (H : Host) (config : Config) :
  attempts (bootstrap_operation config) (ProjectBootstrap.bootstrap_project config).
Proof. apply bootstrap_attempts. Qed.

(** X10: a whole run, besides starting programs, creates only the parent of
    the SDK checkout, the output directory and directories of the project,
    writes only the shell startup file and files of the project, and removes
    only the SDK checkout, and that under "reclone" alone. *)
Theorem run_footprint (U : Unicode) (H : Host) (config : Config) :
  attempts (run_operation config) (FlutterSetup.run config).
Proof. apply run_attempts. Qed.

(* ================================================================== *)
(** * Failures that are tolerated *)
(* ================================================================== *)

Section Tolerated.
Context {H : Host}.

Lemma subprocess_run_unchecked (cmd : Command) (w : World) :
  always_starts ->
  exists r f' o',
    subprocess_run cmd false w = (Ok r, set_machine f' o' (record (Run cmd) w)).
Proof.
  intros Hstart. destruct (Hstart cmd (fs w) (os w)) as (rc & out & err & f' & o' & E).
  rewrite (subprocess_run_exited cmd false w E). cbn [andb].
  eexists _, _, _. reflexivity.
Qed.

Lemma subprocess_run_checked (cmd : Command) (w : World) :
  always_starts ->
  exists f' o',
    (exists r, subprocess_run cmd true w
               = (Ok r, set_machine f' o' (record (Run cmd) w)))
    \/ (exists rc, subprocess_run cmd true w
                   = (Raise (mkExn CalledProcessError
                               (str_CalledProcessError (argv cmd) rc)),
                      set_machine f' o' (record (Run cmd) w))).
Proof.
  intros Hstart. destruct (Hstart cmd (fs w) (os w)) as (rc & out & err & f' & o' & E).
  rewrite (subprocess_run_exited cmd true w E). cbn [andb].
  exists f', o'. destruct (negb (rc =? 0)%Z).
  - right. eexists. reflexivity.
  - left. eexists. reflexivity.
Qed.

Lemma for_each_returns {A} (xs : list A) (body : A -> Py unit) :
  (forall x w, exists w', body x w = (Ok tt, w')) ->
  forall w, exists w', for_each xs body w = (Ok tt, w').
Proof.
  intros Hbody. induction xs as [| x xs IH]; intros w; cbn [for_each].
  - exists w. reflexivity.
  - destruct (Hbody x w) as (w1 & E1). unfold bind. rewrite E1. apply IH.
Qed.

Lemma setup_android_tools_returns (config : Config) (w : World) :
  always_starts ->
  exists w', PrerequisitesManager._setup_android_tools w = (Ok tt, w').
Proof.
  intros Hstart. unfold PrerequisitesManager._setup_android_tools.
  unfold bind at 1. unfold console_print at 1. cbv beta iota zeta.
  apply for_each_returns. clear w. intros args w.
  unfold try_except. unfold bind at 1.
  destruct (subprocess_run_checked
              (command ([u "brew"; u "install"] ++ [fst args; snd args])) w Hstart)
    as (f1 & o1 & [[r E] | [rc E]]); rewrite E; cbv beta iota.
  - unfold console_print. eexists. reflexivity.
  - cbn [isinstance exn_class issubclass ExnClass_eqb orb].
    unfold bind at 1.
    match goal with
    | |- context [subprocess_run ?c false ?v] =>
        destruct (subprocess_run_unchecked c v Hstart) as (r2 & f2 & o2 & E2);
        rewrite E2
    end.
    cbv beta iota. unfold console_print.
    destruct (returncode r2 =? 0)%Z; eexists; reflexivity.
Qed.

Lemma setup_ios_tools_returns (w : World) :
  exists w', PrerequisitesManager._setup_ios_tools w = (Ok tt, w').
Proof.
  unfold PrerequisitesManager._setup_ios_tools.
  unfold bind at 1. unfold console_print at 1. cbv beta iota.
  apply guarded_returns.
Qed.

End Tolerated.


(** X12: on a machine on which every program can be started, the
    platform-specific setup never raises: a package that can neither be
    installed nor found, and a failing [pod repo update], end in a line on
    the console. *)
Theorem platform_tools_never_fatal (H : Host) (config : Config) (w : World) :
  always_starts ->
  exists w', PrerequisitesManager._setup_platform_tools config w = (Ok tt, w').
Proof.
  intros Hstart. unfold PrerequisitesManager._setup_platform_tools.
  unfold bind.
  destruct (str_in (u "android") (platforms config)).
  - destruct (setup_android_tools_returns config w Hstart) as (w1 & ->).
    destruct (str_in (u "ios") (platforms config)).
    + apply setup_ios_tools_returns.
    + eexists. reflexivity.
  - unfold ret at 1.
    destruct (str_in (u "ios") (platforms config)).
    + apply setup_ios_tools_returns.
    + eexists. reflexivity.
Qed.

Lemma platform_tools_never_fatal_witness :
  exists w',
    @PrerequisitesManager._setup_platform_tools
      (scripted_host (fun _ => 1%Z) permissive)
      (sample_config "shop" ["android"%string; "ios"%string] "reset" false)
      (sim_world (scripted_host (fun _ => 1%Z) permissive) no_files tt)
    = (Ok tt, w').
Proof.
  apply (platform_tools_never_fatal (scripted_host (fun _ => 1%Z) permissive)).
  intros c f o. exists 1%Z, [], [], f, o. reflexivity.
Defined.

(** X13: on a machine on which every program can be started,
    [_add_dependencies] runs the two [pub add] commands and reports the
    dependencies as added whatever their exit statuses are. *)
Theorem dependencies_reported_added (H : Host) (config : Config) (w : World) :
  always_starts ->
  exists w',
    ProjectBootstrap._add_dependencies config w = (Ok tt, w')
    /\ console w' = console w ++ [Print (u "  ✅ Dependencies added")]
    /\ effects w'
       = effects w
         ++ [Run (command_in (project_path config)
                    [ProjectBootstrap.flutter_bin; u "pub"; u "add";
                     u "flutter_dotenv"]);
             Run (command_in (project_path config)
                    [ProjectBootstrap.flutter_bin; u "pub"; u "add"; u "--dev";
                     u "flutter_lints"; u "integration_test"])].
Proof.
  intros Hstart. unfold ProjectBootstrap._add_dependencies.
  unfold try_except. unfold bind at 1.
  match goal with
  | |- context [subprocess_run ?c false ?v] =>
      destruct (subprocess_run_unchecked c v Hstart) as (r1 & f1 & o1 & E1);
      rewrite E1
  end.
  cbv beta iota. unfold bind at 1.
  match goal with
  | |- context [subprocess_run ?c false ?v] =>
      destruct (subprocess_run_unchecked c v Hstart) as (r2 & f2 & o2 & E2);
      rewrite E2
  end.
  cbv beta iota. unfold console_print.
  eexists. split; [reflexivity |]. split; [reflexivity |].
  cbn [effects show set_machine record]. rewrite <- app_assoc. reflexivity.
Qed.

Lemma dependencies_reported_added_witness :
  exists w',
    @ProjectBootstrap._add_dependencies
      (scripted_host (fun _ => 1%Z) permissive)
      (sample_config "shop" ["web"%string] "reset" false)
      (sim_world (scripted_host (fun _ => 1%Z) permissive) no_files tt)
    = (Ok tt, w')
    /\ console w' = [Print (u "  ✅ Dependencies added")].
Proof.
  destruct (dependencies_reported_added
              (scripted_host (fun _ => 1%Z) permissive)
              (sample_config "shop" ["web"%string] "reset" false)
              (sim_world (scripted_host (fun _ => 1%Z) permissive) no_files tt))
    as (w' & E & Hc & _).
  - intros c f o. exists 1%Z, [], [], f, o. reflexivity.
  - exists w'. split; [exact E | exact Hc].
Defined.

(* ================================================================== *)
(** * prerequisites.py: further properties *)
(* ================================================================== *)

Section Programs.
Context {H : Host}.

Lemma subprocess_run_succeeds (cmd : Command) (check : bool) (w : World) :
  succeeds cmd ->
  exists out err f' o',
    subprocess_run cmd check w
    = (Ok (mkCompleted 0 out err), set_machine f' o' (record (Run cmd) w)).
Proof.
  intros Hs. destruct (Hs (fs w) (os w)) as (rc & out & err & f' & o' & E & ->).
  rewrite (subprocess_run_exited cmd check w E).
  cbn [Z.eqb negb]. rewrite andb_false_r. eexists _, _, _, _. reflexivity.
Qed.

Lemma subprocess_run_fails (cmd : Command) (w : World) :
  fails cmd ->
  exists rc out err f' o',
    rc <> 0%Z
    /\ subprocess_run cmd false w
       = (Ok (mkCompleted rc out err), set_machine f' o' (record (Run cmd) w))
    /\ subprocess_run cmd true w
       = (Raise (mkExn CalledProcessError (str_CalledProcessError (argv cmd) rc)),
          set_machine f' o' (record (Run cmd) w)).
Proof.
  intros Hf. destruct (Hf (fs w) (os w)) as (rc & out & err & f' & o' & E & Hrc).
  exists rc, out, err, f', o'. split; [exact Hrc |].
  rewrite !(subprocess_run_exited cmd _ w E).
  apply Z.eqb_neq in Hrc. rewrite Hrc. split; reflexivity.
Qed.

End Programs.

(** In a goal that runs [cmd] next: the run exits with status 0. *)
Ltac run_succeeds Hs :=
  match goal with
  | |- context [subprocess_run ?c ?k ?v] =>
      let out := fresh "out" in let err := fresh "err" in
      let f := fresh "f" in let o := fresh "o" in let E := fresh "E" in
      destruct (subprocess_run_succeeds c k v Hs) as (out & err & f & o & E);
      rewrite E; clear E; cbv beta iota
  end.

(** In a goal that runs [cmd] next without [check]: the run exits with
    another status than 0. *)
Ltac run_fails_unchecked Hf :=
  match goal with
  | |- context [subprocess_run ?c false ?v] =>
      let rc := fresh "rc" in let out := fresh "out" in let err := fresh "err" in
      let f := fresh "f" in let o := fresh "o" in
      let Hrc := fresh "Hrc" in let E := fresh "E" in
      destruct (subprocess_run_fails c v Hf) as (rc & out & err & f & o & Hrc & E & _);
      rewrite E; clear E; cbv beta iota; cbn [returncode];
      rewrite ?(proj2 (Z.eqb_neq rc 0%Z) Hrc); cbn [negb]
  end.

(** In a goal that runs [cmd] next with [check]: the run raises. *)
Ltac run_fails_checked Hf :=
  match goal with
  | |- context [subprocess_run ?c true ?v] =>
      let rc := fresh "rc" in let out := fresh "out" in let err := fresh "err" in
      let f := fresh "f" in let o := fresh "o" in
      let Hrc := fresh "Hrc" in let E := fresh "E" in
      destruct (subprocess_run_fails c v Hf) as (rc & out & err & f & o & Hrc & _ & E);
      rewrite E; clear E; cbv beta iota;
      cbn [isinstance exn_class issubclass ExnClass_eqb orb]
  end.



(** X15: when [brew install] fails for the required packages and [brew list]
    finds them, [_install_packages] returns normally: it has run the four
    commands and reported both packages as already installed. *)
Theorem installed_packages_tolerated (H : Host) (w : World) :
  (forall p, fails (command [u "brew"; u "install"; p])) ->
  (forall p, succeeds (command [u "brew"; u "list"; p])) ->
  exists w',
    PrerequisitesManager._install_packages w = (Ok tt, w')
    /\ effects w'
       = effects w ++ [Run (command [u "brew"; u "install"; u "git"]);
                       Run (command [u "brew"; u "list"; u "git"]);
                       Run (command [u "brew"; u "install"; u "cocoapods"]);
                       Run (command [u "brew"; u "list"; u "cocoapods"])]
    /\ console w'
       = console w ++ [Print (u "  📦 Installing " ++ u "git" ++ u "...");
                       Print (u "  ✅ " ++ u "git" ++ u " already installed");
                       Print (u "  📦 Installing " ++ u "cocoapods" ++ u "...");
                       Print (u "  ✅ " ++ u "cocoapods" ++ u " already installed")].
Proof.
  intros Hinstall Hlist.
  unfold PrerequisitesManager._install_packages. cbv zeta. cbn [for_each].
  unfold bind at 1. unfold bind at 1. unfold console_print at 1. cbv beta iota.
  unfold try_except at 1. unfold bind at 1.
  run_fails_checked (Hinstall (u "git")).
  unfold bind at 1. run_succeeds (Hlist (u "git")).
  cbn [returncode Z.eqb]. unfold console_print at 1. cbv beta iota.
  unfold bind at 1. unfold bind at 1. unfold console_print at 1. cbv beta iota.
  unfold try_except at 1. unfold bind at 1.
  run_fails_checked (Hinstall (u "cocoapods")).
  unfold bind at 1. run_succeeds (Hlist (u "cocoapods")).
  cbn [returncode Z.eqb]. unfold console_print at 1. unfold ret.
  eexists. split; [reflexivity |].
  cbn [effects console show set_machine record]. rewrite <- !app_assoc.
  split; reflexivity.
Qed.

Lemma installed_packages_tolerated_witness :
  exists w',
    @PrerequisitesManager._install_packages
      (scripted_host (fails_unless [[u "brew"; u "list"]]) permissive)
      (sim_world (scripted_host (fails_unless [[u "brew"; u "list"]]) permissive)
         no_files tt)
    = (Ok tt, w').
Proof.
  destruct (installed_packages_tolerated
              (scripted_host (fails_unless [[u "brew"; u "list"]]) permissive)
              (sim_world (scripted_host (fails_unless [[u "brew"; u "list"]]) permissive)
                 no_files tt))
    as (w' & E & _).
  - intros p f o. exists 1%Z, [], [], f, o. split; [reflexivity | discriminate].
  - intros p f o. exists 0%Z, [], [], f, o. split; reflexivity.
  - exists w'. exact E.
Defined.

(** X16: when [brew install git] fails and [brew list git] does not find the
    package, [_install_packages] raises [PrerequisitesError] with the failure
    of the installation in its message, and cocoapods is not attempted. *)
Theorem missing_package_is_fatal (H : Host) (w : World) :
  fails (command [u "brew"; u "install"; u "git"]) ->
  fails (command [u "brew"; u "list"; u "git"]) ->
  exists rc w',
    PrerequisitesManager._install_packages w
    = (Raise (mkExn PrerequisitesError
                (u "Failed to install " ++ u "git" ++ u ": "
                   ++ str_CalledProcessError [u "brew"; u "install"; u "git"] rc)),
       w')
    /\ rc <> 0%Z
    /\ effects w'
       = effects w ++ [Run (command [u "brew"; u "install"; u "git"]);
                       Run (command [u "brew"; u "list"; u "git"])].
Proof.
  intros Hinstall Hlist.
  unfold PrerequisitesManager._install_packages. cbv zeta. cbn [for_each].
  unfold bind at 1. unfold bind at 1. unfold console_print at 1. cbv beta iota.
  unfold try_except at 1. unfold bind at 1.
  run_fails_checked Hinstall.
  unfold bind at 1. run_fails_unchecked Hlist.
  unfold raise. cbn [exn_str argv command].
  eexists _, _. split; [reflexivity |]. split; [assumption |].
  cbn [effects console show set_machine record]. rewrite <- !app_assoc.
  reflexivity.
Qed.

Lemma missing_package_is_fatal_witness :
  exists rc w',
    @PrerequisitesManager._install_packages
      (scripted_host (fun _ => 1%Z) permissive)
      (sim_world (scripted_host (fun _ => 1%Z) permissive) no_files tt)
    = (Raise (mkExn PrerequisitesError
                (u "Failed to install " ++ u "git" ++ u ": "
                   ++ @str_CalledProcessError
                        (scripted_host (fun _ => 1%Z) permissive)
                        [u "brew"; u "install"; u "git"] rc)),
       w').
Proof.
  destruct (missing_package_is_fatal
              (scripted_host (fun _ => 1%Z) permissive)
              (sim_world (scripted_host (fun _ => 1%Z) permissive) no_files tt))
    as (rc & w' & E & _).
  - intros f o. exists 1%Z, [], [], f, o. split; [reflexivity | discriminate].
  - intros f o. exists 1%Z, [], [], f, o. split; [reflexivity | discriminate].
  - exists rc, w'. exact E.
Defined.

(* ================================================================== *)
(** * flutter_manager.py: further properties *)
(* ================================================================== *)

(** In a goal that runs a program next without [check], on a machine on
    which every program can be started. *)
Ltac run_unchecked Hstart :=
  match goal with
  | |- context [subprocess_run ?c false ?v] =>
      let r := fresh "r" in let f := fresh "f" in let o := fresh "o" in
      let E := fresh "E" in
      destruct (subprocess_run_unchecked c v Hstart) as (r & f & o & E);
      rewrite E; clear E; cbv beta iota
  end.

Ltac effects_listed :=
  cbn [effects console show set_machine record]; rewrite <- ?app_assoc; reflexivity.

Lemma isinstance_Exception (e : Exn) : isinstance e Exception = true.
Proof. unfold isinstance. destruct (exn_class e); reflexivity. Qed.

(** X17: when the fetch, the checkout of the channel and the fast-forward
    merge exit with status 0, [_update_flutter] returns normally after
    exactly four git commands, whatever the update mode is: nothing is reset
    and no commits are counted. *)
Theorem fast_forward_update (H : Host) (config : Config) (w : World) :
  always_starts ->
  succeeds FlutterManager.fetch_command ->
  succeeds (FlutterManager.checkout_command config) ->
  succeeds (FlutterManager.merge_command config) ->
  exists w',
    FlutterManager._update_flutter config w = (Ok tt, w')
    /\ effects w'
       = effects w ++ [Run FlutterManager.set_url_command;
                       Run FlutterManager.fetch_command;
                       Run (FlutterManager.checkout_command config);
                       Run (FlutterManager.merge_command config)].
Proof.
  intros Hstart Hfetch Hcheckout Hmerge.
  unfold FlutterManager._update_flutter. py_unfold. cbv beta iota.
  run_unchecked Hstart. run_succeeds Hfetch. run_succeeds Hcheckout.
  run_succeeds Hmerge.
  eexists. split; [reflexivity | effects_listed].
Qed.

Lemma fast_forward_update_witness :
  exists w',
    @FlutterManager._update_flutter (scripted_host (fun _ => 0%Z) permissive)
      (sample_config "shop" ["web"%string] "reset" false)
      (sim_world (scripted_host (fun _ => 0%Z) permissive) no_files tt)
    = (Ok tt, w').
Proof.
  destruct (fast_forward_update (scripted_host (fun _ => 0%Z) permissive)
              (sample_config "shop" ["web"%string] "reset" false)
              (sim_world (scripted_host (fun _ => 0%Z) permissive) no_files tt))
    as (w' & E & _).
  - intros c f o. exists 0%Z, [], [], f, o. reflexivity.
  - intros f o. exists 0%Z, [], [], f, o. split; reflexivity.
  - intros f o. exists 0%Z, [], [], f, o. split; reflexivity.
  - intros f o. exists 0%Z, [], [], f, o. split; reflexivity.
  - exists w'. exact E.
Defined.

(** X18: when [git fetch] fails, [_update_flutter] raises
    [FlutterInstallationError] with the failure in its message, and the
    change of the remote URL and the fetch are all it has attempted: no
    checkout, no merge. *)
Theorem fetch_failure_stops_update (H : Host) (config : Config) (w : World) :
  always_starts ->
  fails FlutterManager.fetch_command ->
  exists rc w',
    FlutterManager._update_flutter config w
    = (Raise (mkExn FlutterInstallationError
                (u "Failed to update Flutter: "
                   ++ str_CalledProcessError (argv FlutterManager.fetch_command) rc)),
       w')
    /\ rc <> 0%Z
    /\ effects w'
       = effects w ++ [Run FlutterManager.set_url_command;
                       Run FlutterManager.fetch_command].
Proof.
  intros Hstart Hfetch.
  unfold FlutterManager._update_flutter. py_unfold. cbv beta iota.
  run_unchecked Hstart. run_fails_checked Hfetch.
  eexists _, _. split; [reflexivity |]. split; [assumption | effects_listed].
Qed.

Lemma fetch_failure_stops_update_witness :
  exists rc w',
    @FlutterManager._update_flutter (scripted_host (fun _ => 1%Z) permissive)
      (sample_config "shop" ["web"%string] "reset" false)
      (sim_world (scripted_host (fun _ => 1%Z) permissive) no_files tt)
    = (Raise (mkExn FlutterInstallationError
                (u "Failed to update Flutter: "
                   ++ @str_CalledProcessError (scripted_host (fun _ => 1%Z) permissive)
                        (argv (@FlutterManager.fetch_command
                                 (scripted_host (fun _ => 1%Z) permissive))) rc)),
       w').
Proof.
  destruct (fetch_failure_stops_update (scripted_host (fun _ => 1%Z) permissive)
              (sample_config "shop" ["web"%string] "reset" false)
              (sim_world (scripted_host (fun _ => 1%Z) permissive) no_files tt))
    as (rc & w' & E & _).
  - intros c f o. exists 1%Z, [], [], f, o. reflexivity.
  - intros f o. exists 1%Z, [], [], f, o. split; [reflexivity | discriminate].
  - exists rc, w'. exact E.
Defined.

(** X19: when the checkout of the channel fails, [_update_flutter] creates
    the branch from the remote-tracking branch and goes on: with that and the
    merge succeeding it returns normally after five git commands. *)
Theorem missing_branch_is_created (H : Host) (config : Config) (w : World) :
  always_starts ->
  succeeds FlutterManager.fetch_command ->
  fails (FlutterManager.checkout_command config) ->
  succeeds (FlutterManager.checkout_new_branch_command config) ->
  succeeds (FlutterManager.merge_command config) ->
  exists w',
    FlutterManager._update_flutter config w = (Ok tt, w')
    /\ effects w'
       = effects w ++ [Run FlutterManager.set_url_command;
                       Run FlutterManager.fetch_command;
                       Run (FlutterManager.checkout_command config);
                       Run (FlutterManager.checkout_new_branch_command config);
                       Run (FlutterManager.merge_command config)].
Proof.
  intros Hstart Hfetch Hcheckout Hbranch Hmerge.
  unfold FlutterManager._update_flutter. py_unfold. cbv beta iota.
  run_unchecked Hstart. run_succeeds Hfetch. run_fails_checked Hcheckout.
  run_succeeds Hbranch. run_succeeds Hmerge.
  eexists. split; [reflexivity | effects_listed].
Qed.

Lemma missing_branch_is_created_witness :
  let h := scripted_host
             (fun c => if str_eqb (nth 2 (argv c) []) (u "stable") then 1%Z else 0%Z)
             permissive in
  exists w',
    @FlutterManager._update_flutter h
      (sample_config "shop" ["web"%string] "reset" false) (sim_world h no_files tt)
    = (Ok tt, w').
Proof.
  intros h.
  destruct (missing_branch_is_created h
              (sample_config "shop" ["web"%string] "reset" false)
              (sim_world h no_files tt))
    as (w' & E & _).
  - intros c f o. eexists _, [], [], f, o. reflexivity.
  - intros f o. exists 0%Z, [], [], f, o. split; reflexivity.
  - intros f o. exists 1%Z, [], [], f, o. split; [reflexivity | discriminate].
  - intros f o. exists 0%Z, [], [], f, o. split; reflexivity.
  - intros f o. exists 0%Z, [], [], f, o. split; reflexivity.
  - exists w'. exact E.
Defined.

(** X20: under "reset", when [git reset --hard] fails,
    [_handle_diverged_branches] raises [FlutterInstallationError] with the
    failure in its message, after the count of the commits and the reset. *)
Theorem reset_failure_is_fatal (H : Host) (config : Config) (w : World) :
  flutter_update_mode config = u "reset" ->
  always_starts ->
  fails (FlutterManager.reset_command config) ->
  exists rc w',
    FlutterManager._handle_diverged_branches config w
    = (Raise (mkExn FlutterInstallationError
                (u "Failed to reset Flutter: "
                   ++ str_CalledProcessError
                        (argv (FlutterManager.reset_command config)) rc)),
       w')
    /\ rc <> 0%Z
    /\ effects w'
       = effects w ++ [Run (FlutterManager.rev_list_command config);
                       Run (FlutterManager.reset_command config)].
Proof.
  intros Hmode Hstart Hreset.
  unfold FlutterManager._handle_diverged_branches.
  rewrite Hmode, mode_reset_not_skip, str_eqb_refl.
  unfold bind at 1. unfold console_print at 1.
  unfold bind at 1.
  destruct (Hstart (FlutterManager.rev_list_command config) (fs w) (os w))
    as (rc0 & out0 & err0 & f0 & o0 & E0).
  destruct (commit_counts_swallowed config
              (show (Print (u "  ⚠️  Flutter repo has diverged from origin")) w) E0)
    as (w1 & -> & _ & _ & Heff).
  cbn [effects show] in Heff.
  unfold bind at 1. unfold console_print at 1.
  unfold try_except at 1. unfold bind at 1.
  run_fails_checked Hreset. unfold raise.
  eexists _, _. split; [reflexivity |]. split; [assumption |].
  cbn [effects console show set_machine record]. rewrite Heff, <- app_assoc.
  reflexivity.
Qed.

Lemma reset_failure_is_fatal_witness :
  let h := scripted_host (fails_unless [[u "git"; u "rev-list"]]) permissive in
  exists rc w',
    @FlutterManager._handle_diverged_branches h
      (sample_config "shop" ["web"%string] "reset" false) (sim_world h no_files tt)
    = (Raise (mkExn FlutterInstallationError
                (u "Failed to reset Flutter: "
                   ++ @str_CalledProcessError h
                        (argv (@FlutterManager.reset_command h
                                 (sample_config "shop" ["web"%string] "reset" false)))
                        rc)),
       w').
Proof.
  intros h.
  destruct (reset_failure_is_fatal h
              (sample_config "shop" ["web"%string] "reset" false)
              (sim_world h no_files tt))
    as (rc & w' & E & _).
  - reflexivity.
  - intros c f o. eexists _, [], [], f, o. reflexivity.
  - intros f o. exists 1%Z, [], [], f, o. split; [reflexivity | discriminate].
  - exists rc, w'. exact E.
Defined.

(** X21: whatever goes wrong in a reclone (the removal, the creation of the
    parent directory, the clone), [_reclone_flutter] raises
    [FlutterInstallationError] with a message that starts with "Failed to
    reclone Flutter: ". *)
Theorem reclone_raises_installation_error (H : Host) (config : Config)
    (w w' : World) (e : Exn) :
  FlutterManager._reclone_flutter config w = (Raise e, w') ->
  exists reason,
    e = mkExn FlutterInstallationError (u "Failed to reclone Flutter: " ++ reason).
Proof.
  unfold FlutterManager._reclone_flutter.
  unfold bind at 1. unfold console_print at 1. cbv beta iota.
  unfold try_except.
  match goal with
  | |- context [match ?body ?v with _ => _ end] => destruct (body v) as [[[] | e0] w0]
  end.
  - discriminate.
  - rewrite isinstance_Exception. unfold raise. intros E.
    injection E as <- _. eexists. reflexivity.
Qed.

Lemma reclone_raises_installation_error_witness :
  let h := sim_host read_only in
  exists reason w',
    @FlutterManager._reclone_flutter h
      (sample_config "shop" ["web"%string] "reclone" false)
      (sim_world h no_files (1, 2)%nat)
    = (Raise (mkExn FlutterInstallationError
                (u "Failed to reclone Flutter: " ++ reason)), w').
Proof.
  intros h.
  destruct (@FlutterManager._reclone_flutter h
              (sample_config "shop" ["web"%string] "reclone" false)
              (sim_world h no_files (1, 2)%nat)) as [[[] | e] w'] eqn:E.
  - exfalso. vm_compute in E. discriminate E.
  - destruct (reclone_raises_installation_error h _ _ w' e E) as (reason & ->).
    exists reason, w'. reflexivity.
Defined.

(** X22: after a call of [_ensure_flutter_path] that returned, another call
    writes nothing: the files and the attempted operations are what the
    first call left, so the export line is in the startup file once. *)
Theorem flutter_path_added_once (H : Host) (w w1 : World) :
  FlutterManager._ensure_flutter_path w = (Ok tt, w1) ->
  fs (snd (FlutterManager._ensure_flutter_path w1)) = fs w1
  /\ effects (snd (FlutterManager._ensure_flutter_path w1)) = effects w1.
Proof.
  intros E1.
  destruct (ensure_flutter_path_exports w w1 E1) as [(content & Hfile & Hin) _].
  assert (Hagain : exists r w2,
             FlutterManager._ensure_flutter_path w1 = (r, w2)
             /\ fs w2 = fs w1 /\ effects w2 = effects w1).
  { unfold FlutterManager._ensure_flutter_path.
    unfold bind at 1. unfold console_print at 1. cbv beta iota.
    unfold bind at 1. unfold path_exists at 1. cbn [fs show]. rewrite Hfile.
    cbv beta iota. unfold bind at 1. unfold bind at 1. unfold read_text.
    cbn [fs os show]. rewrite Hfile.
    destruct (os_error (OpRead FlutterManager.zprofile) (fs w1) (os w1)).
    - eexists _, _. split; [reflexivity |]. split; reflexivity.
    - cbv beta iota. rewrite Hin. cbn [negb]. unfold console_print, sys_path_ensure.
      cbn [sys_path show].
      match goal with
      | |- context [if ?b then _ else _] => destruct b
      end; (eexists _, _; split; [reflexivity |]; split; reflexivity). }
  destruct Hagain as (r & w2 & -> & Hfs & Heff). split; assumption.
Qed.

Lemma flutter_path_added_once_witness :
  let h := sim_host permissive in
  let once := snd (@FlutterManager._ensure_flutter_path h (sim_world h no_files (1, 2)%nat)) in
  fs (snd (@FlutterManager._ensure_flutter_path h once)) = fs once
  /\ effects (snd (@FlutterManager._ensure_flutter_path h once)) = effects once.
Proof.
  intros h once.
  apply (flutter_path_added_once h (sim_world h no_files (1, 2)%nat) once).
  vm_compute. reflexivity.
Defined.

(* ================================================================== *)
(** * core.py and cli.py: how failures are reported *)
(* ================================================================== *)

Section Reporting.
Context {U : Unicode} {H : Host}.


(** The shape of the four stages of [run]: whatever the body raises leaves
    the stage as an exception of the stage's class. *)
Lemma stage_raises (title task failed : str) (body : Py unit) (c : ExnClass)
    (msg : Exn -> str) (w w' : World) (e : Exn) :
  (console_print title ;;
   progress_add_task task ;;
   try_except body Exception (fun e => progress_update failed ;; raise c (msg e))) w
  = (Raise e, w') ->
  exn_class e = c.
Proof.
  py_unfold. cbv beta iota.
  match goal with
  | |- context [match body ?v with _ => _ end] => destruct (body v) as [[[] | e0] w0]
  end.
  - discriminate.
  - rewrite isinstance_Exception. intros E. injection E as <- _. reflexivity.
Qed.

Lemma run_unfolds (config : Config) (w : World) :
  FlutterSetup.run config w
  = try_except (for_each (run_stages config) (fun stage => stage)) Exception
      (fun e =>
         console_print (nl ++ u "[red]❌ Setup failed: " ++ exn_str e ++ u "[/red]") ;;
         reraise e)
      (run_header config w).
Proof.
  unfold FlutterSetup.run, run_header.
  do 4 (unfold bind at 1; unfold console_print at 1; cbv beta iota).
  unfold bind at 1. cbv zeta.
  destruct (dry_run config).
  - unfold console_print at 1. cbv beta iota.
    unfold try_except, run_stages. cbn [for_each].
    match goal with
    | |- match ?a ?v with _ => _ end = match ?b ?v with _ => _ end =>
        replace (b v) with (a v); [reflexivity |]
    end.
    repeat (apply bind_ext; intros [] ?). symmetry. apply bind_unit_ret.
  - unfold ret at 1. cbv beta iota.
    unfold try_except, run_stages. cbn [for_each].
    match goal with
    | |- match ?a ?v with _ => _ end = match ?b ?v with _ => _ end =>
        replace (b v) with (a v); [reflexivity |]
    end.
    repeat (apply bind_ext; intros [] ?). symmetry. apply bind_unit_ret.
Qed.




End Reporting.

(** X23: when [flutter create] fails for a project that does not exist yet
    in an existing output directory, the creation stage raises
    [ProjectCreationError] whose message carries the prefix "Failed to create
    project: " twice, once from the creator and once from the stage. *)
Theorem creation_failure_wrapped_twice (U : Unicode) (H : Host) (config : Config)
    (w : World) :
  dry_run config = false ->
  fs w (project_path config) = None ->
  fs w (output_dir config) = Some Dir ->
  os_error (OpMkdir (output_dir config)) (fs w) (os w) = None ->
  fails (command (ProjectCreator._build_create_command config)) ->
  exists rc w',
    FlutterSetup._run_project_creation config w
    = (Raise (mkExn ProjectCreationError
                (u "Failed to create project: "
                   ++ u "Failed to create project: "
                   ++ str_CalledProcessError
                        (ProjectCreator._build_create_command config) rc)),
       w')
    /\ rc <> 0%Z
    /\ effects w'
       = effects w ++ [Mkdir (output_dir config);
                       Run (command (ProjectCreator._build_create_command config))].
Proof.
  intros Hdry Hpath Hdir Hos Hfail.
  unfold FlutterSetup._run_project_creation, ProjectCreator.create_project.
  rewrite Hdry. py_unfold. cbv beta iota zeta. cbn [fs show]. rewrite Hpath.
  cbv beta iota. unfold mkdir. cbn [fs os show]. rewrite Hos, Hdir.
  cbv beta iota zeta.
  run_fails_checked Hfail.
  eexists _, _. split; [reflexivity |]. split; [assumption | effects_listed].
Qed.

Lemma creation_failure_wrapped_twice_witness :
  let h := scripted_host (fun _ => 1%Z) permissive in
  let config := sample_config "shop" ["web"%string] "reset" false in
  let w := sim_world h (update no_files (PosixPath (u "/work")) (Some Dir)) tt in
  exists rc w',
    @FlutterSetup._run_project_creation ascii_only h config w
    = (Raise (mkExn ProjectCreationError
                (u "Failed to create project: "
                   ++ u "Failed to create project: "
                   ++ @str_CalledProcessError h
                        (@ProjectCreator._build_create_command ascii_only h config) rc)),
       w').
Proof.
  intros h config w.
  destruct (creation_failure_wrapped_twice ascii_only h config w)
    as (rc & w' & E & _).
  - reflexivity.
  - vm_compute. reflexivity.
  - vm_compute. reflexivity.
  - reflexivity.
  - intros f o. exists 1%Z, [], [], f, o. split; [reflexivity | discriminate].
  - exists rc, w'. exact E.
Defined.



(** X25: the stages of [run] are taken in the order prerequisites, SDK,
    project, bootstrap, closing message; when the stages before one returned
    and that one raises, no later stage is started, "Setup failed" is printed
    with the message of the exception, and [run] raises that same
    exception. *)
Theorem run_stops_at_failing_stage (U : Unicode) (H : Host) (config : Config)
    (done rest : list (Py unit)) (stage : Py unit) (w w1 w2 : World) (e : Exn) :
  run_stages config = done ++ stage :: rest ->
  runs_ok done (run_header config w) w1 ->
  stage w1 = (Raise e, w2) ->
  FlutterSetup.run config w = (Raise e, show (setup_failed_line e) w2).
Proof.
  intros Hsplit Hdone Hstage.
  rewrite run_unfolds, Hsplit. unfold try_except.
  rewrite (for_each_aborts done rest stage _ w1 w2 e Hdone Hstage).
  rewrite isinstance_Exception. reflexivity.
Qed.

Lemma run_stops_at_failing_stage_witness :
  let h := scripted_host (fun _ => 1%Z) permissive in
  let config := sample_config "shop" ["web"%string] "reset" false in
  let w := sim_world h no_files tt in
  exists e w2,
    @FlutterSetup.run ascii_only h config w
    = (Raise e, show (setup_failed_line e) w2)
    /\ exn_class e = PrerequisitesError.
Proof.
  intros h config w.
  destruct (@FlutterSetup._run_prerequisites h config
              (@run_header ascii_only h config w)) as [[[] | e] w2] eqn:E.
  - exfalso. vm_compute in E. discriminate E.
  - exists e, w2. split.
    + exact (run_stops_at_failing_stage ascii_only h config [] _ _ w _ w2 e
               eq_refl eq_refl E).
    + exact (stage_raises _ _ _ _ _ _ _ _ _ E).
Defined.




(* ================================================================== *)
(** * bootstrap.py: an entry point without the expected opening *)
(* ================================================================== *)

Lemma replace_from_absent (old new s : str) :
  contains old s = false -> replace_from old new s 0 = s.
Proof.
  induction s as [| c r IH]; intros Habs; [reflexivity |].
  change (contains old (c :: r)) with (startswith old (c :: r) || contains old r)
    in Habs.
  apply orb_false_iff in Habs. destruct Habs as [Hstart Hrest].
  cbn [replace_from]. rewrite Hstart, (IH Hrest). reflexivity.
Qed.

Lemma replace_absent (old new s : str) :
  old <> [] -> contains old s = false -> replace old new s = s.
Proof.
  intros Hne Habs. unfold replace. destruct old; [contradiction |].
  apply replace_from_absent. exact Habs.
Qed.

Lemma split_char_not_empty (sep : N) (s : str) : split_char sep s <> [].
Proof.
  destruct s as [| c r]; cbn [split_char]; [discriminate |].
  destruct (c =? sep); [discriminate |].
  destruct (split_char sep r); discriminate.
Qed.

Lemma join_split (sep : N) (s : str) : join [sep] (split_char sep s) = s.
Proof.
  induction s as [| c r IH]; [reflexivity |].
  cbn [split_char]. pose proof (split_char_not_empty sep r) as Hne.
  destruct (N.eqb_spec c sep) as [-> | _].
  - destruct (split_char sep r) as [| l ls]; [contradiction |].
    change (join [sep] ([] :: l :: ls)) with (sep :: join [sep] (l :: ls)).
    rewrite IH. reflexivity.
  - destruct (split_char sep r) as [| l ls]; [contradiction |].
    destruct ls as [| l2 ls].
    + cbn [join] in *. rewrite IH. reflexivity.
    + change (join [sep] ((c :: l) :: l2 :: ls))
        with (c :: join [sep] (l :: l2 :: ls)).
      rewrite IH. reflexivity.
Qed.

Lemma In_list_insert_inv {A} (i : Z) (x y : A) (l : list A) :
  In y (list_insert i x l) -> y = x \/ In y l.
Proof.
  unfold list_insert. cbv zeta.
  set (k := Z.to_nat _). intros Hin.
  apply in_app_or in Hin. destruct Hin as [Hin | [-> | Hin]].
  - right. rewrite <- (firstn_skipn k l). apply in_or_app. left. exact Hin.
  - left. reflexivity.
  - right. rewrite <- (firstn_skipn k l). apply in_or_app. right. exact Hin.
Qed.

Lemma contains_line (m : str) (sep : N) (s l : str) :
  contains m s = false -> In l (split_char sep s) -> contains m l = false.
Proof.
  intros Habs Hin. destruct (contains m l) eqn:Hl; [| reflexivity].
  rewrite <- (join_split sep s), (contains_join m [sep] l _ Hin Hl) in Habs.
  discriminate Habs.
Qed.

(** X28: when the entry point does not contain the text "void main() {"
    (another signature, another layout), what [_modify_main_dart] writes is
    the entry point with the import line inserted and nothing else changed:
    no call that loads the environment file is added. *)
Theorem entry_point_without_main_opening (content : str) :
  contains main_opening content = false ->
  add_dotenv_loading content
  = join nl
      (list_insert
         (if (find_import_index 0 (split_char newline content) >=? 0)%Z
          then (find_import_index 0 (split_char newline content) + 1)%Z
          else 0%Z)
         dotenv_import (split_char newline content)).
Proof.
  intros Habs. unfold add_dotenv_loading. cbv zeta.
  set (lines := split_char newline content).
  assert (Hkeep : forall i,
             replace main_opening main_with_load (join nl (list_insert i dotenv_import lines))
             = join nl (list_insert i dotenv_import lines)).
  { intros i. unfold nl.
    rewrite (replace_join main_opening main_with_load newline main_opening_not_empty
               newline_not_in_main_opening).
    f_equal. rewrite <- (map_id (list_insert i dotenv_import lines)) at 2.
    apply map_ext_in. intros l Hl.
    apply replace_absent; [exact main_opening_not_empty |].
    apply In_list_insert_inv in Hl. destruct Hl as [-> | Hl].
    - vm_compute. reflexivity.
    - exact (contains_line main_opening newline content l Habs Hl). }
  destruct (find_import_index 0 lines >=? 0)%Z; apply Hkeep.
Qed.

Lemma entry_point_without_main_opening_witness :
  add_dotenv_loading
    (text_of_lines
       [u "import 'package:flutter/material.dart';";
        u "";
        u "void main() async {";
        u "  runApp(const MyApp());";
        u "}"])
  = text_of_lines
      [u "import 'package:flutter/material.dart';";
       u "import 'package:flutter_dotenv/flutter_dotenv.dart';";
       u "";
       u "void main() async {";
       u "  runApp(const MyApp());";
       u "}"].
Proof.
  rewrite entry_point_without_main_opening; vm_compute; reflexivity.
Defined.
